(** * Raspberry-Pi weather dashboard: the PIL renderer, verified

    A shallow embedding of [weather_display_pil.py] (the icon resolver, the
    Catmull-Rom smoother, the chart scaling, the forecast-card layout, the
    yellow recolouring and the render cycle) together with the properties
    the specification states about them.

    Conventions of the embedding.
    - Python [int] is [Z]; [//] is [Z.div] (floor division).
    - Python [float] values are exact rationals [Q]; [int(x)] on a float is
      truncation toward zero ([py_int]).  Module [Binary64] re-evaluates
      the pixel maps with IEEE-754 binary64 arithmetic and shows that both
      agree on the finite ranges the dashboard works with.
    - Python [str] is [string]; slices are [substring].
    - A [dict] that the code copies or writes to lives in a heap of
      objects ([gmap loc pydict]); lists that are only sliced are values. *)

From Stdlib Require Import ZArith QArith Qround Lia.
From Stdlib Require Import PrimFloat SpecFloat FloatOps Uint63.
From stdpp Require Import gmap strings list.

Local Open Scope string_scope.
Local Open Scope list_scope.
Local Open Scope Z_scope.

(** ** Python primitives *)

Module Py.

(** [int(x)] for a float [x]: truncation toward zero. *)
Definition py_int (x : Q) : Z := Z.quot (Qnum x) (Z.pos (Qden x)).

(** [s.endswith(suffix)] *)
Definition endswith (s suffix : string) : bool :=
  let n := String.length s in
  let k := String.length suffix in
  (k <=? n)%nat && String.eqb (String.substring (n - k) k s) suffix.

(** [s[:k]] for a non-negative literal [k] *)
Definition str_take (k : nat) (s : string) : string :=
  String.substring 0 k s.

(** [s[:-1]] *)
Definition drop_last (s : string) : string :=
  String.substring 0 (String.length s - 1) s.

(** [x in (a, b, ...)] on strings *)
Definition str_in (x : string) (l : list string) : bool :=
  existsb (String.eqb x) l.

(** [range(n)] *)
Definition range (n : Z) : list Z := map Z.of_nat (seq 0 (Z.to_nat n)).

(** [enumerate(l)] *)
Definition enumerate {A} (l : list A) : list (Z * A) :=
  combine (map Z.of_nat (seq 0 (length l))) l.

(** [l[:k]] for a non-negative literal [k] *)
Definition take_slice {A} (k : nat) (l : list A) : list A := firstn k l.

(** [min(l)] and [max(l)] of a non-empty list (Python raises on an empty
    one; the renderer never passes one). *)
Definition py_min (l : list Z) : Z :=
  match l with
  | [] => 0
  | x :: xs => fold_left Z.min xs x
  end.

Definition py_max (l : list Z) : Z :=
  match l with
  | [] => 0
  | x :: xs => fold_left Z.max xs x
  end.

End Py.
Import Py.

(** ** The icon resolver: [get_weather_icon] *)

Definition get_weather_icon (icon_code : string) (wind_speed : Q) : string :=
  if Qle_bool 20 wind_speed then "windy"
  else
    let is_night := endswith icon_code "n" in
    let base_code := str_take 2 icon_code in
    if String.eqb base_code "01" then
      if is_night then "clear_night"
      else if Qle_bool 10 wind_speed then "clear_windy"
      else "clear_day"
    else if String.eqb base_code "02" then
      if is_night then "partly_cloudy_night" else "partly_cloudy_day"
    else if str_in base_code ["03"; "04"] then
      if negb is_night && Qle_bool 10 wind_speed then "cloudy_windy"
      else "cloudy"
    else if String.eqb base_code "09" then
      if is_night then "drizzle_night" else "drizzle_day"
    else if String.eqb base_code "10" then
      if is_night then "rain_night" else "rain_day"
    else if String.eqb base_code "11" then "thunderstorm"
    else if String.eqb base_code "13" then
      if is_night then "snow_night" else "snow_day"
    else if String.eqb base_code "50" then "mist"
    else "cloudy".

(** The condition families the resolver recognises. *)
Definition known_base_codes : list string :=
  ["01"; "02"; "03"; "04"; "09"; "10"; "11"; "13"; "50"].

(** ** The curve smoother: [bezier_curve] *)

Definition point : Type := Z * Z.

(** [int -> float] promotion in mixed arithmetic. *)
Definition float_of (z : Z) : Q := inject_Z z.

(** [points[i]] for an index the caller keeps in range ([getitem_in_range]
    below shows [bezier_curve] does). *)
Definition getitem (points : list point) (i : Z) : point :=
  nth (Z.to_nat i) points (0, 0).

(** The Catmull-Rom basis of one coordinate, as written in the loop body. *)
Definition catmull_rom (p0 p1 p2 p3 : Z) (t : Q) : Q :=
  let t2 := (t * t)%Q in
  let t3 := (t2 * t)%Q in
  ((1 # 2) * (float_of (2 * p1)
              + float_of (- p0 + p2) * t
              + float_of (2 * p0 - 5 * p1 + 4 * p2 - p3) * t2
              + float_of (- p0 + 3 * p1 - 3 * p2 + p3) * t3))%Q.

(** The inner loop: the [num_segments] samples of the interval
    [points[i] .. points[i+1]]. *)
Definition bezier_segment (points : list point) (num_segments i : Z)
  : list point :=
  let n := Z.of_nat (length points) in
  let p0 := getitem points (Z.max 0 (i - 1)) in
  let p1 := getitem points i in
  let p2 := getitem points (i + 1) in
  let p3 := getitem points (Z.min (n - 1) (i + 2)) in
  map (fun t_step =>
         let t := (float_of t_step / float_of num_segments)%Q in
         (py_int (catmull_rom (fst p0) (fst p1) (fst p2) (fst p3) t),
          py_int (catmull_rom (snd p0) (snd p1) (snd p2) (snd p3) t)))
      (range num_segments).

Definition bezier_curve (points : list point) (num_segments : Z)
  : list point :=
  let n := Z.of_nat (length points) in
  if n <? 2 then points
  else flat_map (bezier_segment points num_segments) (range (n - 1))
       ++ [getitem points (n - 1)].

(** ** The chart renderer: [draw_graph_section] *)

Record HourlyPoint := {
  hp_time : string;
  hp_temp : Z;
  hp_rain_chance : Z
}.

Definition graph_x : Z := 85.
Definition graph_width : Z := 590.
Definition graph_height : Z := 80.
Definition graph_y (y_start : Z) : Z := y_start + 12.

(** [temp_max - temp_min if temp_max != temp_min else 1] *)
Definition temp_range (temp_min temp_max : Z) : Z :=
  if negb (temp_max =? temp_min) then temp_max - temp_min else 1.

(** [graph_width / (len(temps) - 1) if len(temps) > 1 else graph_width] *)
Definition graph_step (n : Z) : Q :=
  if 1 <? n then (float_of graph_width / float_of (n - 1))%Q
  else float_of graph_width.

(** [px = graph_x + i * step] *)
Definition sample_px (n i : Z) : Q :=
  (float_of graph_x + float_of i * graph_step n)%Q.

(** [py = graph_y + graph_height - ((temp - temp_min) / temp_range) * graph_height] *)
Definition temp_py (y_start temp_min temp_max temp : Z) : Q :=
  (float_of (graph_y y_start + graph_height)
   - (float_of (temp - temp_min) / float_of (temp_range temp_min temp_max))
     * float_of graph_height)%Q.

(** [py = graph_y + graph_height - (rain_pct / 100) * graph_height] *)
Definition rain_py (y_start rain_pct : Z) : Q :=
  (float_of (graph_y y_start + graph_height)
   - (float_of rain_pct / float_of 100) * float_of graph_height)%Q.

(** The integer pixel row a temperature (a probability) is drawn at. *)
Definition temp_pixel_y (y_start temp_min temp_max temp : Z) : Z :=
  py_int (temp_py y_start temp_min temp_max temp).

Definition rain_pixel_y (y_start rain_pct : Z) : Z :=
  py_int (rain_py y_start rain_pct).

Definition temp_points (y_start temp_min temp_max : Z)
    (hourly_data : list HourlyPoint) : list point :=
  let temps := map hp_temp hourly_data in
  let n := Z.of_nat (length temps) in
  map (fun '(i, temp) =>
         (py_int (sample_px n i), temp_pixel_y y_start temp_min temp_max temp))
      (enumerate temps).

Definition rain_points (y_start : Z) (hourly_data : list HourlyPoint)
  : list point :=
  let n := Z.of_nat (length hourly_data) in
  map (fun '(i, hour) =>
         (py_int (sample_px n i), rain_pixel_y y_start (hp_rain_chance hour)))
      (enumerate hourly_data).

(** The stack of translucent polygons under a curve: for each layer its
    alpha and its outline. *)
Definition num_layers : Z := 30.

Definition gradient_layers (y_start : Z) (smooth : list point)
  : list (Z * list point) :=
  let bottom := graph_y y_start + graph_height in
  map (fun layer =>
         let alpha :=
           py_int (float_of 80 * (1 - float_of layer / float_of num_layers))%Q in
         let y_offset :=
           py_int (float_of (graph_height * layer) / float_of num_layers)%Q in
         (alpha,
          map (fun '(px, py) => (px, py + y_offset)) smooth
          ++ [(fst (getitem smooth (Z.of_nat (length smooth) - 1)), bottom);
              (fst (getitem smooth 0), bottom)]))
      (range num_layers).

(** What the chart consists of.  The four corner labels and the
    horizontal shift of a time label by half its text width depend on
    font metrics and are left out; a time label is kept with the [px] it
    is centred on. *)
Record Chart := {
  ch_temp_points : list point;
  ch_temp_curve : list point;
  ch_temp_fill : list (Z * list point);
  ch_rain_points : list point;
  ch_rain_curve : list point;
  ch_rain_fill : list (Z * list point);
  ch_time_labels : list (Q * string)
}.

(** [None] is the early [return]: nothing is drawn. *)
Definition draw_graph_section (hourly_data : list HourlyPoint)
    (temp_min temp_max y_start : Z) : option Chart :=
  if (Z.of_nat (length hourly_data) <? 2) then None
  else
    let points := temp_points y_start temp_min temp_max hourly_data in
    let smooth_temp_points :=
      if 1 <? Z.of_nat (length points) then bezier_curve points 20
      else points in
    let rain := rain_points y_start hourly_data in
    let has_rain := 1 <? Z.of_nat (length rain) in
    let smooth_rain_points := if has_rain then bezier_curve rain 20 else [] in
    let n := Z.of_nat (length hourly_data) in
    Some {|
      ch_temp_points := points;
      ch_temp_curve := smooth_temp_points;
      ch_temp_fill :=
        if 1 <? Z.of_nat (length smooth_temp_points)
        then gradient_layers y_start smooth_temp_points else [];
      ch_rain_points := rain;
      ch_rain_curve := smooth_rain_points;
      ch_rain_fill :=
        if has_rain then gradient_layers y_start smooth_rain_points else [];
      ch_time_labels :=
        map (fun '(i, hour) => (sample_px n i, hp_time hour))
            (enumerate hourly_data)
    |}.

(** ** The yellow recolouring: [make_icon_yellow] *)

Definition pixel : Type := Z * Z * Z * Z.

Definition yellow : Z * Z * Z := (255, 220, 0).

(** [(r + g + b) / 3 / 255] *)
Definition brightness (r g b : Z) : Q :=
  (float_of (r + g + b) / float_of 3 / float_of 255)%Q.

(** The body of the double loop, for one pixel. *)
Definition yellow_pixel (p : pixel) : pixel :=
  let '(r, g, b, a) := p in
  if 0 <? a then
    let br := brightness r g b in
    let '(yr, yg, yb) := yellow in
    (py_int (float_of yr * br), py_int (float_of yg * br),
     py_int (float_of yb * br), a)
  else p.

(** An RGBA image as its rows of pixels. *)
Abbreviation image := (list (list pixel)).

Definition make_icon_yellow (icon : image) : image :=
  map (map yellow_pixel) icon.

(** [pixels[x, y]] *)
Definition getpixel (icon : image) (x y : nat) : option pixel :=
  match icon !! y with
  | Some row => row !! x
  | None => None
  end.

(** Three usual readings of the luminance of a pixel: the mean of the
    channels (the [brightness] of the code), Rec. 601 luma (times 1000)
    and the HSV value. *)
Definition mean_brightness (p : pixel) : Q :=
  let '(r, g, b, _) := p in brightness r g b.

Definition luma601 (p : pixel) : Z :=
  let '(r, g, b, _) := p in 299 * r + 587 * g + 114 * b.

Definition hsv_value (p : pixel) : Z :=
  let '(r, g, b, _) := p in Z.max r (Z.max g b).

(** ** Icon lookup: the name-resolution part of [load_icon] *)

Definition ui_icons : list string :=
  ["sunrise"; "sunset"; "wind"; "humidity"; "visibility"; "aqi"].

(** [icon_path] as [load_icon] computes it. *)
Definition load_icon_path (icon_name : string) (wind_speed : Q)
    (force_day : bool) : string :=
  if str_in icon_name ui_icons then ("icons/" ++ icon_name ++ ".png")%string
  else
    let icon_name :=
      if force_day && endswith icon_name "n"
      then (drop_last icon_name ++ "d")%string else icon_name in
    let mapped_icon := get_weather_icon icon_name wind_speed in
    ("icons/" ++ mapped_icon ++ ".png")%string.

(** The rest of [load_icon].  What PIL does is kept abstract: [assets]
    is the icon directory (a path that exists yields the decoded image)
    and [enhance] is the resize / sharpen / saturate / contrast chain,
    which depends on whether the icon is a UI glyph and on the size. *)
Section LoadIcon.
Variable assets : string -> option image.
Variable enhance : bool -> Z -> image -> image.

(** [Image.new('RGBA', (size, size), (255, 255, 255, 0))] *)
Definition blank_icon (size : Z) : image :=
  repeat (repeat (255, 255, 255, 0) (Z.to_nat size)) (Z.to_nat size).

Definition load_icon (icon_name : string) (size : Z) (wind_speed : Q)
    (force_day : bool) : image :=
  let is_ui_icon := str_in icon_name ui_icons in
  let icon_name' :=
    if is_ui_icon then icon_name
    else if force_day && endswith icon_name "n"
         then (drop_last icon_name ++ "d")%string else icon_name in
  match assets (load_icon_path icon_name wind_speed force_day) with
  | None => blank_icon size
  | Some raw =>
      let icon := enhance is_ui_icon size raw in
      if str_in icon_name' ["sunrise"; "sunset"] then make_icon_yellow icon
      else icon
  end.
End LoadIcon.

(** ** Python objects that are copied or written: the heap *)

Inductive pyval :=
| VInt (z : Z)
| VFloat (q : Q)
| VStr (s : string)
| VNone.

Abbreviation loc := positive (only parsing).
Abbreviation pydict := (gmap string pyval) (only parsing).
Abbreviation heap := (gmap positive (gmap string pyval)) (only parsing).

(** A call either returns or raises; the heap is threaded through both. *)
Inductive outcome (A : Type) : Type :=
| Returned (a : A)
| Raised (e : string).
Arguments Returned {A} a.
Arguments Raised {A} e.

Definition Run (A : Type) : Type := heap -> outcome A * heap.

Definition ret {A} (a : A) : Run A := fun h => (Returned a, h).

Definition raise {A} (e : string) : Run A := fun h => (Raised e, h).

Definition bind {A B} (m : Run A) (k : A -> Run B) : Run B :=
  fun h =>
    match m h with
    | (Returned a, h') => k a h'
    | (Raised e, h') => (Raised e, h')
    end.

Notation "x <- m ;; k" := (bind m (fun x => k))
  (at level 100, m at next level, right associativity).

(** Reading the dict an object reference points to. *)
Definition deref (l : loc) : Run pydict :=
  fun h =>
    match h !! l with
    | Some d => (Returned d, h)
    | None => (Raised "dangling reference", h)
    end.

(** [d[key]] *)
Definition getkey (d : pydict) (key : string) : Run pyval :=
  match d !! key with
  | Some v => ret v
  | None => raise "KeyError"
  end.

(** [d.get(key, default)] *)
Definition get_default (d : pydict) (key : string) (dflt : pyval)
  : pyval :=
  match d !! key with
  | Some v => v
  | None => dflt
  end.

(** [d.copy()]: a new dict object with the same items. *)
Definition dict_copy (l : loc) : Run loc :=
  fun h =>
    match h !! l with
    | Some d => let l' := fresh (dom h) in (Returned l', <[l' := d]> h)
    | None => (Raised "dangling reference", h)
    end.

(** [d[key] = v]: an update in place of the object [l] points to. *)
Definition dict_setitem (l : loc) (key : string) (v : pyval) : Run unit :=
  fun h =>
    match h !! l with
    | Some d => (Returned tt, <[l := <[key := v]> d]> h)
    | None => (Raised "dangling reference", h)
    end.

(** ** The panel renderer: forecast cards *)

(** What [draw_forecast_card] puts on the canvas: the card box, the day
    label, the icon asset asked for and the two temperatures of the
    range text. *)
Record Card := {
  card_x : Z;
  card_y : Z;
  card_w : Z;
  card_h : Z;
  card_day_name : string;
  card_icon_path : string;
  card_max_temp : pyval;
  card_min_temp : pyval
}.

Definition draw_forecast_card (day_data : loc) (x y width height : Z)
  : Run Card :=
  d <- deref day_data ;;
  day_name <- getkey d "day_name" ;;
  match day_name with
  | VStr name =>
      match get_default d "icon" (VStr "01d") with
      | VStr icon_code =>
          max_temp <- getkey d "max_temp" ;;
          min_temp <- getkey d "min_temp" ;;
          ret {| card_x := x; card_y := y; card_w := width; card_h := height;
                 card_day_name := name;
                 card_icon_path := load_icon_path icon_code 0 true;
                 card_max_temp := max_temp;
                 card_min_temp := min_temp |}
      | _ => raise "AttributeError"
      end
  | _ => raise "TypeError"
  end.

(** A day entry [draw_forecast_card] can draw: the label is a string, the
    icon code is a string or absent, both temperatures are present. *)
Definition drawable (d : pydict) : Prop :=
  (exists name, d !! "day_name" = Some (VStr name)) /\
  (d !! "icon" = None \/ exists code, d !! "icon" = Some (VStr code)) /\
  is_Some (d !! "max_temp") /\
  is_Some (d !! "min_temp").

Definition day_ok (h : heap) (l : loc) : Prop :=
  exists d, h !! l = Some d /\ drawable d.

(** The same test as a boolean. *)
Definition drawableb (d : pydict) : bool :=
  match d !! "day_name" with Some (VStr _) => true | _ => false end
  && match d !! "icon" with None | Some (VStr _) => true | _ => false end
  && match d !! "max_temp" with Some _ => true | None => false end
  && match d !! "min_temp" with Some _ => true | None => false end.

Definition day_okb (h : heap) (l : loc) : bool :=
  match h !! l with
  | Some d => drawableb d
  | None => false
  end.

(** [total_spacing = 58 * 2] *)
Definition total_spacing : Z := 58 * 2.

(** [gap_spacing = 3 * (cards_per_row - 1)] *)
Definition gap_spacing (cards_per_row : Z) : Z := 3 * (cards_per_row - 1).

(** [card_width = available_width // cards_per_row] *)
Definition card_width (width cards_per_row : Z) : Z :=
  let available_width := width - total_spacing - gap_spacing cards_per_row in
  available_width / cards_per_row.

Definition card_height : Z := 90.

(** The body of the [for i, day in enumerate(daily_forecasts)] loop. *)
Definition draw_forecast_step (y_start cw : Z) (i : Z) (day : loc)
  : Run Card :=
  let cx := 42 + i * (cw + 3) in
  day_display <- dict_copy day ;;
  u <- (if i =? 0 then dict_setitem day_display "day_name" (VStr "Today")
        else ret tt) ;;
  draw_forecast_card day_display cx y_start cw card_height.

Fixpoint for_each {A B} (body : A -> Run B) (l : list A) : Run (list B) :=
  match l with
  | [] => ret []
  | a :: l' => b <- body a ;; bs <- for_each body l' ;; ret (b :: bs)
  end.

(** [draw_forecast]; [forecast_data] is a list of references to the day
    dicts, [width] is [self.width].  It returns the cards it drew. *)
Definition draw_forecast (width : Z) (forecast_data : list loc) (y_start : Z)
  : Run (list Card) :=
  match forecast_data with
  | [] => ret []
  | _ =>
      let daily_forecasts := take_slice 6 forecast_data in
      match daily_forecasts with
      | [] => ret []
      | _ =>
          let cards_per_row := Z.of_nat (length daily_forecasts) in
          let cw := card_width width cards_per_row in
          for_each (fun '(i, day) => draw_forecast_step y_start cw i day)
                   (enumerate daily_forecasts)
      end
  end.

(** ** The view model: [prepare_template_data] *)

(** Only the time of day of a timestamp reaches the canvas. *)
Record datetime := {
  dt_hour : Z;
  dt_minute : Z
}.

(** [t.strftime('%I %p').lstrip('0').lower()], e.g. ["3 pm"], ["12 am"]. *)
Definition hour12 (h : Z) : Z := if h mod 12 =? 0 then 12 else h mod 12.

Definition hour_text (h12 : Z) : string :=
  nth (Z.to_nat (h12 - 1))
      ["1"; "2"; "3"; "4"; "5"; "6"; "7"; "8"; "9"; "10"; "11"; "12"] "".

Definition time_label (t : datetime) : string :=
  (hour_text (hour12 (dt_hour t))
   ++ (if (dt_hour t <? 12)%Z then " am" else " pm"))%string.

(** An entry of [forecast['hourly']] as the fetcher builds it. *)
Record HourlyRaw := {
  hr_time : datetime;
  hr_temp : Z;
  hr_rain_chance : option Z
}.

Record Forecast := {
  fc_hourly : list HourlyRaw;
  fc_daily : list loc
}.

Record Current := {
  cur_city : string;
  cur_country : option string;
  cur_temperature : Z;
  cur_feels_like : Z;
  cur_description : option string;
  cur_icon : string;
  cur_wind_speed : option Q
}.

(** [weather_data]: a missing key is [None]. *)
Record WeatherData := {
  wd_current : option Current;
  wd_forecast : option Forecast
}.

(** The view model; the formatted date strings ('current_date',
    'last_updated') reach only the header and are left out. *)
Record RenderModel := {
  rm_city : string;
  rm_country : string;
  rm_current : Current;
  rm_hourly_data : list HourlyPoint;
  rm_temp_min : Z;
  rm_temp_max : Z;
  rm_forecast : list loc
}.

Definition prepare_template_data (weather_data : option WeatherData)
  : option RenderModel :=
  match weather_data with
  | None => None
  | Some wd =>
      match wd_current wd with
      | None => None
      | Some current =>
          let forecast :=
            default {| fc_hourly := []; fc_daily := [] |} (wd_forecast wd) in
          let hourly_data :=
            map (fun '(i, hour) =>
                   {| hp_time :=
                        if i =? 0 then "Now" else time_label (hr_time hour);
                      hp_temp := hr_temp hour;
                      hp_rain_chance := default 0 (hr_rain_chance hour) |})
                (enumerate (take_slice 8 (fc_hourly forecast))) in
          let temps :=
            match hourly_data with
            | [] => [cur_temperature current]
            | _ => map hp_temp hourly_data
            end in
          let state := default "US" (cur_country current) in
          Some {| rm_city := cur_city current;
                  rm_country := if String.eqb state "US" then "PA" else state;
                  rm_current := current;
                  rm_hourly_data := hourly_data;
                  rm_temp_min := py_min temps;
                  rm_temp_max := py_max temps;
                  rm_forecast := take_slice 7 (fc_daily forecast) |}
      end
  end.

(** ** The render cycle: [update_display] *)

(** What a finished image shows. *)
Record Frame := {
  fr_city : string;
  fr_country : string;
  fr_main_icon : string;
  fr_temperature : Z;
  fr_feels_like : Z;
  fr_description : string;
  fr_chart : option Chart;
  fr_cards : list Card
}.

(** The outside world of the renderer: the e-ink panel, the debug file
    [weather_display.png] and standard output. *)
Record Device := {
  dev_screen : option Frame;
  dev_png : option Frame;
  dev_stdout : list string
}.

Definition print (msg : string) (dev : Device) : Device :=
  {| dev_screen := dev_screen dev;
     dev_png := dev_png dev;
     dev_stdout := dev_stdout dev ++ [msg] |}.

(** [img.save(...)], [display.set_image(img)], [display.show()] *)
Definition show (img : Frame) (dev : Device) : Device :=
  {| dev_screen := Some img;
     dev_png := Some img;
     dev_stdout := dev_stdout dev
                   ++ ["Weather display saved as weather_display.png";
                       "Weather display updated"] |}.

(** [not weather_data or not weather_data.get('current')] *)
Definition no_current (weather_data : option WeatherData) : bool :=
  match weather_data with
  | None => true
  | Some wd => match wd_current wd with None => true | Some _ => false end
  end.

(** [update_display]: the whole body sits in [try ... except Exception],
    so the call itself always returns. *)
Definition update_display (width : Z) (weather_data : option WeatherData)
    (dev : Device) (h : heap) : Device * heap :=
  if no_current weather_data then (print "No weather data available" dev, h)
  else
    match prepare_template_data weather_data with
    | None => (print "Could not prepare template data" dev, h)
    | Some data =>
        let current := rm_current data in
        let wind_speed := default 0%Q (cur_wind_speed current) in
        let chart :=
          draw_graph_section (rm_hourly_data data) (rm_temp_min data)
                             (rm_temp_max data) 245 in
        match draw_forecast width (rm_forecast data) 370 h with
        | (Returned cards, h') =>
            let img :=
              {| fr_city := rm_city data;
                 fr_country := rm_country data;
                 fr_main_icon :=
                   load_icon_path (cur_icon current) wind_speed false;
                 fr_temperature := cur_temperature current;
                 fr_feels_like := cur_feels_like current;
                 fr_description :=
                   default "Clear" (cur_description current);
                 fr_chart := chart;
                 fr_cards := cards |} in
            (show img dev, h')
        | (Raised e, h') =>
            (print ("Error updating display: " ++ e)%string dev, h')
        end
    end.

(** [WeatherDashboard.update_weather], given what the fetcher returned
    ([None] also stands for a fetch that raised): the display is asked to
    render the data, or [None] to "show error on display". *)
Definition update_weather (width : Z) (fetched : option WeatherData)
    (dev : Device) (h : heap) : Device * heap :=
  if no_current fetched then update_display width None dev h
  else update_display width fetched dev h.

(** ** The sample record of [test_display] *)

(** The seven day dicts ('date' left out), at the references 1 to 7. *)
Definition test_day (i : nat) : pydict :=
  {[ "day_name" := VStr (nth i ["Fri"; "Sat"; "Sun"; "Mon"; "Tue"; "Wed"; "Thu"] "");
     "min_temp" := VInt (46 + Z.of_nat i);
     "max_temp" := VInt (54 + Z.of_nat i);
     "description" := VStr "Partly Cloudy";
     "icon" := VStr "02d";
     "humidity" := VInt 60;
     "wind_speed" := VFloat (599 # 100) ]}.

Definition test_heap : heap :=
  list_to_map (map (fun i => (Pos.of_nat (S i), test_day i)) (seq 0 7)).

Definition test_rain_chances : list Z :=
  [5; 10; 15; 25; 35; 40; 35; 25; 15; 10; 5].

(** Eleven hourly entries three hours apart, the clock reading 09:00. *)
Definition test_hourly : list HourlyRaw :=
  map (fun i =>
         {| hr_time := {| dt_hour := (9 + Z.of_nat i * 3) mod 24;
                          dt_minute := 0 |};
            hr_temp := 50 + Z.of_nat i;
            hr_rain_chance := Some (nth i test_rain_chances 0) |})
      (seq 0 11).

Definition test_data : WeatherData :=
  {| wd_current :=
       Some {| cur_city := "Philadelphia";
               cur_country := Some "US";
               cur_temperature := 54;
               cur_feels_like := 51;
               cur_description := Some "Partly Cloudy";
               cur_icon := "02d";
               cur_wind_speed := Some (599 # 100) |};
     wd_forecast :=
       Some {| fc_hourly := test_hourly;
               fc_daily := map (fun i => Pos.of_nat (S i)) (seq 0 7) |} |}.

(** ** Icon vocabularies *)

(** Every asset name [get_weather_icon] can return. *)
Definition icon_assets : list string :=
  ["windy"; "clear_night"; "clear_windy"; "clear_day";
   "partly_cloudy_night"; "partly_cloudy_day"; "cloudy_windy"; "cloudy";
   "drizzle_night"; "drizzle_day"; "rain_night"; "rain_day";
   "thunderstorm"; "snow_night"; "snow_day"; "mist"].

(** The assets without a night or wind variant in their name. *)
Definition day_assets : list string :=
  ["clear_day"; "partly_cloudy_day"; "cloudy"; "drizzle_day"; "rain_day";
   "thunderstorm"; "snow_day"; "mist"].

(** The assets a night code can resolve to below the wind override. *)
Definition night_assets : list string :=
  ["clear_night"; "partly_cloudy_night"; "cloudy"; "drizzle_night";
   "rain_night"; "thunderstorm"; "snow_night"; "mist"].

(** [f"icons/{name}.png"] *)
Definition icon_file (name : string) : string :=
  ("icons/" ++ name ++ ".png")%string.

(** Case analysis on every test of a conditional in the goal. *)
Ltac split_ifs :=
  repeat match goal with
         | |- context [if ?b then _ else _] => destruct b
         end.

(** ** What a forecast card shows of its entry *)

(** The icon code [draw_forecast_card] reads: [day_data.get('icon', '01d')]. *)
Definition entry_icon_code (d : pydict) : pyval :=
  get_default d "icon" (VStr "01d").

(** The box of the card in column [i] of a row of cards [cw] wide. *)
Definition card_box (y_start cw i : Z) (c : Card) : Prop :=
  card_x c = 42 + i * (cw + 3) /\ card_y c = y_start /\
  card_w c = cw /\ card_h c = card_height.

(** The content of the card in column [i] drawn for the entry [d]. *)
Definition card_content (i : Z) (d : pydict) (c : Card) : Prop :=
  (i = 0 -> card_day_name c = "Today") /\
  (i <> 0 -> d !! "day_name" = Some (VStr (card_day_name c))) /\
  (exists code, entry_icon_code d = VStr code /\
                card_icon_path c = load_icon_path code 0 true) /\
  d !! "max_temp" = Some (card_max_temp c) /\
  d !! "min_temp" = Some (card_min_temp c).

(** ** Sample records for the forecast row *)

(** A heap whose second day entry has lost its 'max_temp'. *)
Definition broken_heap : heap :=
  <[2%positive := delete "max_temp" (test_day 1)]> test_heap.

(** ** IEEE-754 binary64 evaluation of the pixel maps *)

Module Binary64.

(** [float(z)] for an integer below 2^63 in magnitude. *)
Definition of_int (z : Z) : float :=
  if z <? 0 then PrimFloat.opp (PrimFloat.of_uint63 (Uint63.of_Z (- z)))
  else PrimFloat.of_uint63 (Uint63.of_Z z).

(** [int(f)] for a finite float (Python raises on infinities and NaN,
    which the maps below never produce on the ranges compared). *)
Definition to_int (f : float) : Z :=
  match Prim2SF f with
  | S754_finite s m e =>
      let mag := if 0 <=? e then Z.pos m * 2 ^ e else Z.pos m / 2 ^ (- e) in
      if s then - mag else mag
  | _ => 0
  end.

Definition temp_pixel_y (y_start temp_min temp_max temp : Z) : Z :=
  to_int (PrimFloat.sub (of_int (graph_y y_start + graph_height))
            (PrimFloat.mul
               (PrimFloat.div (of_int (temp - temp_min))
                              (of_int (temp_range temp_min temp_max)))
               (of_int graph_height))).

Definition rain_pixel_y (y_start rain_pct : Z) : Z :=
  to_int (PrimFloat.sub (of_int (graph_y y_start + graph_height))
            (PrimFloat.mul (PrimFloat.div (of_int rain_pct) (of_int 100))
                           (of_int graph_height))).

(** One channel of [yellow_pixel]: [int(y * ((r + g + b) / 3 / 255))]. *)
Definition yellow_channel (y sum : Z) : Z :=
  to_int (PrimFloat.mul (of_int y)
            (PrimFloat.div (PrimFloat.div (of_int sum) (of_int 3))
                           (of_int 255))).

(** [int(graph_x + i * step)] with [step = graph_width / (n - 1)]. *)
Definition sample_pixel_x (n i : Z) : Z :=
  to_int (PrimFloat.add (of_int graph_x)
            (PrimFloat.mul (of_int i)
               (PrimFloat.div (of_int graph_width) (of_int (n - 1))))).

End Binary64.

(** * Properties *)

(** ** Facts about the Python primitives *)

Lemma py_int_float_of (z : Z) : py_int (float_of z) = z.
Proof. unfold py_int, float_of; simpl. apply Z.quot_1_r. Qed.

Lemma py_int_Qeq (x y : Q) : (x == y)%Q -> py_int x = py_int y.
Proof.
  unfold py_int, Qeq. destruct x as [a b], y as [c d]; simpl. intros E.
  rewrite <- (Z.quot_mul_cancel_r a (Z.pos b) (Z.pos d)) by lia.
  rewrite E.
  rewrite (Z.mul_comm (Z.pos b) (Z.pos d)).
  apply Z.quot_mul_cancel_r; lia.
Qed.

(** A float that is exactly an integer truncates to it. *)
Lemma py_int_exact (x : Q) (z : Z) : (x == float_of z)%Q -> py_int x = z.
Proof.
  intros E. rewrite (py_int_Qeq _ _ E). apply py_int_float_of.
Qed.

Lemma py_int_nonneg_floor (x : Q) : (0 <= x)%Q -> py_int x = Qfloor x.
Proof.
  unfold py_int, Qle. destruct x as [a b]; simpl. intros H.
  apply Z.quot_div_nonneg; lia.
Qed.

Lemma py_int_neg_ceiling (x : Q) : (x <= 0)%Q -> py_int x = Qceiling x.
Proof.
  unfold py_int, Qle, Qceiling, Qfloor. destruct x as [a b]; simpl. intros H.
  rewrite <- (Z.opp_involutive a) at 1.
  rewrite Z.quot_opp_l by lia.
  f_equal. apply Z.quot_div_nonneg; lia.
Qed.

(** Truncation toward zero is monotone. *)
Lemma py_int_mono (x y : Q) : (x <= y)%Q -> py_int x <= py_int y.
Proof.
  intros H.
  destruct (Qlt_le_dec x 0) as [Hx | Hx], (Qlt_le_dec y 0) as [Hy | Hy].
  - rewrite !py_int_neg_ceiling by (apply Qlt_le_weak; assumption).
    apply Qceiling_resp_le, H.
  - rewrite (py_int_neg_ceiling x) by (apply Qlt_le_weak; assumption).
    rewrite (py_int_nonneg_floor y) by assumption.
    transitivity 0.
    + replace 0 with (Qceiling 0) by reflexivity.
      apply Qceiling_resp_le, Qlt_le_weak, Hx.
    + replace 0 with (Qfloor 0) by reflexivity.
      apply Qfloor_resp_le, Hy.
  - exfalso. apply (Qlt_irrefl 0).
    apply Qle_lt_trans with x; [assumption |].
    apply Qle_lt_trans with y; assumption.
  - rewrite !py_int_nonneg_floor by assumption.
    apply Qfloor_resp_le, H.
Qed.

(** Two non-negative floats at least one apart land on different pixels. *)
Lemma py_int_gap (x y : Q) :
  (0 <= x)%Q -> (x + 1 <= y)%Q -> py_int x < py_int y.
Proof.
  intros Hx H.
  assert (Hy : (0 <= y)%Q).
  { apply Qle_trans with (x + 1)%Q; [| exact H].
    apply Qle_trans with (x + 0)%Q.
    - rewrite Qplus_0_r. exact Hx.
    - apply Qplus_le_r. discriminate. }
  rewrite !py_int_nonneg_floor by assumption.
  assert (L : (inject_Z (Qfloor x + 1) < inject_Z (Qfloor y + 1))%Q).
  { apply Qle_lt_trans with y; [| apply Qlt_floor].
    apply Qle_trans with (x + 1)%Q; [| exact H].
    rewrite inject_Z_plus. apply Qplus_le_l, Qfloor_le. }
  rewrite <- Zlt_Qlt in L. lia.
Qed.

(** ** The icon resolver *)

Lemma wind_override (c : string) (w : Q) :
  (20 <= w)%Q -> get_weather_icon c w = "windy".
Proof.
  intros H. unfold get_weather_icon.
  apply Qle_bool_iff in H. rewrite H. reflexivity.
Qed.

Lemma str_in_In (x : string) (l : list string) :
  str_in x l = true <-> In x l.
Proof.
  unfold str_in. rewrite existsb_exists. split.
  - intros [y [Hy E]]. apply String.eqb_eq in E. subst. exact Hy.
  - intros H. exists x. split; [exact H | apply String.eqb_refl].
Qed.

Lemma unknown_code_is_cloudy (c : string) (w : Q) :
  (w < 20)%Q -> ~ In (str_take 2 c) known_base_codes ->
  get_weather_icon c w = "cloudy".
Proof.
  intros Hw Hc. unfold get_weather_icon.
  destruct (Qle_bool 20 w) eqn:E.
  { apply Qle_bool_iff in E. exfalso. apply (Qlt_irrefl w).
    apply Qlt_le_trans with 20%Q; assumption. }
  assert (N : forall k, In k known_base_codes ->
                        String.eqb (str_take 2 c) k = false).
  { intros k Hk. apply String.eqb_neq. intros Ek. apply Hc.
    rewrite Ek. exact Hk. }
  cbv zeta. unfold str_in, existsb.
  rewrite !N by (unfold known_base_codes; simpl; tauto).
  reflexivity.
Qed.

(** C5. With the wind override first (a wind speed of at least 20 always
    gives "windy"), the resolver maps "01d" at wind 0 to "clear_day",
    "01d" at wind 15 to "clear_windy", "01n" at wind 0 to "clear_night",
    every code at wind 25 to "windy", "11d" at wind 0 to "thunderstorm",
    and below the override every code whose two leading characters are
    not one of 01, 02, 03, 04, 09, 10, 11, 13, 50 to "cloudy"; being a
    total function it never fails. *)
Theorem get_weather_icon_contract :
  get_weather_icon "01d" 0 = "clear_day" /\
  get_weather_icon "01d" 15 = "clear_windy" /\
  get_weather_icon "01n" 0 = "clear_night" /\
  (forall c, get_weather_icon c 25 = "windy") /\
  get_weather_icon "11d" 0 = "thunderstorm" /\
  (forall c w, (20 <= w)%Q -> get_weather_icon c w = "windy") /\
  (forall c w, (w < 20)%Q -> ~ In (str_take 2 c) known_base_codes ->
               get_weather_icon c w = "cloudy").
Proof.
  repeat split; try reflexivity.
  - apply wind_override.
  - apply unknown_code_is_cloudy.
Qed.

Lemma get_weather_icon_contract_witness :
  get_weather_icon "99x" 0 = "cloudy" /\ get_weather_icon "99x" 31 = "windy".
Proof.
  destruct get_weather_icon_contract as (_ & _ & _ & _ & _ & W & U).
  split.
  - apply U; [reflexivity |].
    simpl. intros [H | [H | [H | [H | [H | [H | [H | [H | [H | []]]]]]]]]];
      discriminate H.
  - apply W. discriminate.
Defined.

(** ** Forcing the day icon *)

Lemma night_code_is_no_ui_icon (c : string) :
  endswith c "n" = true -> str_in c ui_icons = false.
Proof.
  intros H. destruct (str_in c ui_icons) eqn:E; [| reflexivity].
  apply str_in_In in E. unfold ui_icons in E. simpl in E.
  destruct E as [E | [E | [E | [E | [E | [E | []]]]]]]; subst c;
    discriminate H.
Qed.

(** C6. With [force_day] the night code "02n" resolves to the asset that
    "02d" resolves to without it; for every code ending in 'n' and every
    wind speed, [load_icon] with [force_day] resolves the code with its
    last character replaced by 'd' through the condition-code mapping,
    which is what [load_icon] without [force_day] does on the replaced
    code whenever that is not the name of a UI icon. *)
Theorem force_day_resolves_day_code :
  load_icon_path "02n" 0 true = load_icon_path "02d" 0 false /\
  (forall c w, endswith c "n" = true ->
     load_icon_path c w true
     = ("icons/" ++ get_weather_icon (drop_last c ++ "d") w ++ ".png")%string) /\
  (forall c w, endswith c "n" = true ->
     str_in (drop_last c ++ "d")%string ui_icons = false ->
     load_icon_path c w true
     = load_icon_path (drop_last c ++ "d")%string w false).
Proof.
  split; [reflexivity |]. split.
  - intros c w H. unfold load_icon_path.
    rewrite (night_code_is_no_ui_icon c H), H. reflexivity.
  - intros c w H U. unfold load_icon_path.
    rewrite (night_code_is_no_ui_icon c H), H, U. reflexivity.
Qed.

Lemma force_day_resolves_day_code_witness :
  load_icon_path "10n" 12 true = "icons/rain_day.png" /\
  load_icon_path "10n" 12 true = load_icon_path "10d" 12 false.
Proof.
  destruct force_day_resolves_day_code as (_ & A & B). split.
  - rewrite (A "10n" 12%Q); reflexivity.
  - rewrite (B "10n" 12%Q); reflexivity.
Defined.

(** ** Forecast-card layout *)

(** C7. For a row of N cards, 1 <= N <= 6, on a canvas of any width, N
    card widths plus the N-1 gaps of 3 pixels plus the fixed margins of
    2 * 58 pixels do not exceed the canvas width; the right edge of the
    last card, which [draw_forecast] places from x = 42 on, stays inside
    the canvas as well. *)
Theorem forecast_row_fits (width n : Z) :
  1 <= n <= 6 ->
  n * card_width width n + gap_spacing n + total_spacing <= width /\
  42 + (n - 1) * (card_width width n + 3) + card_width width n <= width.
Proof.
  intros Hn. unfold card_width, gap_spacing, total_spacing.
  pose proof (Z.mul_div_le (width - 58 * 2 - 3 * (n - 1)) n) as H.
  split; nia.
Qed.

Lemma forecast_row_fits_witness :
  6 * card_width 800 6 + gap_spacing 6 + total_spacing <= 800 /\
  42 + (6 - 1) * (card_width 800 6 + 3) + card_width 800 6 <= 800.
Proof. apply (forecast_row_fits 800 6). lia. Defined.

(** ** The curve smoother *)

Lemma length_range (n : Z) : length (range n) = Z.to_nat n.
Proof. unfold range. rewrite length_map. apply length_seq. Qed.

Lemma range_pos (n : Z) :
  0 < n -> exists rest, range n = 0 :: rest.
Proof.
  intros H. unfold range.
  destruct (Z.to_nat n) as [| k] eqn:E; [lia |].
  simpl. eexists. reflexivity.
Qed.

Lemma In_range (n i : Z) : In i (range n) <-> 0 <= i < n.
Proof.
  unfold range. rewrite in_map_iff. split.
  - intros [k [<- Hk]]. apply in_seq in Hk. lia.
  - intros H. exists (Z.to_nat i). split; [lia |]. apply in_seq. lia.
Qed.

(** Every index [bezier_curve] reads lies inside the list, so no lookup
    can raise and the default of [getitem] is never returned. *)
Lemma getitem_in_range (points : list point) (i : Z) :
  0 <= i < Z.of_nat (length points) - 1 ->
  let n := Z.of_nat (length points) in
  0 <= Z.max 0 (i - 1) < n /\ 0 <= i < n /\ 0 <= i + 1 < n /\
  0 <= Z.min (n - 1) (i + 2) < n.
Proof. intros H n. subst n. lia. Qed.

Lemma getitem_In (points : list point) (i : Z) :
  0 <= i < Z.of_nat (length points) -> In (getitem points i) points.
Proof. intros H. unfold getitem. apply nth_In. lia. Qed.

Lemma catmull_rom_at_0 (p0 p1 p2 p3 : Z) (t : Q) :
  (t == 0)%Q -> (catmull_rom p0 p1 p2 p3 t == float_of p1)%Q.
Proof.
  intros H. unfold catmull_rom, float_of. cbv zeta. rewrite H.
  rewrite inject_Z_mult. change (inject_Z 2) with 2%Q. ring.
Qed.

(** A constant run of control values is reproduced exactly. *)
Lemma catmull_rom_constant (c : Z) (t : Q) :
  (catmull_rom c c c c t == float_of c)%Q.
Proof.
  unfold catmull_rom, float_of. cbv zeta.
  replace (- c + c) with 0 by lia.
  replace (2 * c - 5 * c + 4 * c - c) with 0 by lia.
  replace (- c + 3 * c - 3 * c + c) with 0 by lia.
  rewrite inject_Z_mult. change (inject_Z 2) with 2%Q.
  change (inject_Z 0) with 0%Q. ring.
Qed.

Lemma length_bezier_segment (points : list point) (s i : Z) :
  length (bezier_segment points s i) = Z.to_nat s.
Proof. unfold bezier_segment. cbv zeta. rewrite length_map. apply length_range. Qed.

Lemma bezier_curve_short (points : list point) (s : Z) :
  (length points < 2)%nat -> bezier_curve points s = points.
Proof.
  intros H. unfold bezier_curve. cbv zeta.
  destruct (Z.of_nat (length points) <? 2) eqn:E; [reflexivity |].
  apply Z.ltb_ge in E. lia.
Qed.

Lemma bezier_curve_long (points : list point) (s : Z) :
  (2 <= length points)%nat ->
  bezier_curve points s
  = flat_map (bezier_segment points s)
             (range (Z.of_nat (length points) - 1))
    ++ [getitem points (Z.of_nat (length points) - 1)].
Proof.
  intros H. unfold bezier_curve. cbv zeta.
  destruct (Z.of_nat (length points) <? 2) eqn:E; [| reflexivity].
  apply Z.ltb_lt in E. lia.
Qed.

Lemma length_bezier_curve (points : list point) (s : Z) :
  (2 <= length points)%nat -> 0 <= s ->
  Z.of_nat (length (bezier_curve points s))
  = (Z.of_nat (length points) - 1) * s + 1.
Proof.
  intros H Hs. rewrite bezier_curve_long by exact H.
  rewrite length_app.
  rewrite (flat_map_constant_length (c := Z.to_nat s))
    by (intros; apply length_bezier_segment).
  rewrite length_range. simpl length. nia.
Qed.

Lemma head_bezier_curve (points : list point) (s : Z) :
  (2 <= length points)%nat -> 0 < s ->
  head (bezier_curve points s) = head points.
Proof.
  intros H Hs. rewrite bezier_curve_long by exact H.
  destruct (range_pos (Z.of_nat (length points) - 1)) as [r Hr]; [lia |].
  destruct (range_pos s Hs) as [r' Hr'].
  rewrite Hr. simpl flat_map. unfold bezier_segment at 1. cbv zeta.
  rewrite Hr'. simpl map.
  destruct points as [| [x y] rest]; [simpl in H; lia |].
  simpl head. unfold getitem at 2 5. simpl nth. simpl fst. simpl snd.
  assert (T : (float_of 0 / float_of s == 0)%Q).
  { unfold float_of. change (inject_Z 0) with 0%Q. unfold Qdiv. ring. }
  rewrite (py_int_Qeq _ _ (catmull_rom_at_0 _ x _ _ _ T)).
  rewrite (py_int_Qeq _ _ (catmull_rom_at_0 _ y _ _ _ T)).
  rewrite !py_int_float_of. reflexivity.
Qed.

Lemma last_bezier_curve (points : list point) (s : Z) :
  (2 <= length points)%nat ->
  last (bezier_curve points s) = last points.
Proof.
  intros H. rewrite bezier_curve_long by exact H.
  rewrite last_snoc, last_lookup. unfold getitem. rewrite nth_lookup.
  replace (Z.to_nat (Z.of_nat (length points) - 1)) with (pred (length points))
    by lia.
  destruct (lookup_lt_is_Some_2 points (pred (length points))) as [p Hp];
    [lia |].
  rewrite Hp. reflexivity.
Qed.

(** C3. An input of fewer than two points is returned unchanged.  For at
    least two integer points and a positive segment count s, the output
    starts with the first input point, ends with the last input point
    (the explicit append) and has exactly (n - 1) * s + 1 points. *)
Theorem bezier_curve_shape (points : list point) (num_segments : Z) :
  ((length points < 2)%nat -> bezier_curve points num_segments = points) /\
  ((2 <= length points)%nat -> 0 < num_segments ->
   head (bezier_curve points num_segments) = head points /\
   last (bezier_curve points num_segments) = last points /\
   Z.of_nat (length (bezier_curve points num_segments))
   = (Z.of_nat (length points) - 1) * num_segments + 1).
Proof.
  split; [apply bezier_curve_short |].
  intros H Hs. split; [| split].
  - apply head_bezier_curve; assumption.
  - apply last_bezier_curve; assumption.
  - apply length_bezier_curve; [assumption | lia].
Qed.

Lemma bezier_curve_shape_witness :
  bezier_curve [(7, 9)] 20 = [(7, 9)] /\
  head (bezier_curve [(85, 337); (380, 297); (675, 257)] 20) = Some (85, 337) /\
  last (bezier_curve [(85, 337); (380, 297); (675, 257)] 20) = Some (675, 257) /\
  Z.of_nat (length (bezier_curve [(85, 337); (380, 297); (675, 257)] 20)) = 41.
Proof.
  split.
  - apply (proj1 (bezier_curve_shape [(7, 9)] 20)). simpl. lia.
  - apply (proj2 (bezier_curve_shape [(85, 337); (380, 297); (675, 257)] 20));
      simpl; lia.
Defined.

(** ** Chart scaling *)

Lemma temp_range_pos (temp_min temp_max : Z) :
  temp_min <= temp_max -> 0 < temp_range temp_min temp_max.
Proof.
  intros H. unfold temp_range.
  destruct (temp_max =? temp_min) eqn:E; simpl; [lia |].
  apply Z.eqb_neq in E. lia.
Qed.

Lemma temp_range_lt (temp_min temp_max : Z) :
  temp_min < temp_max -> temp_range temp_min temp_max = temp_max - temp_min.
Proof.
  intros H. unfold temp_range.
  destruct (temp_max =? temp_min) eqn:E; simpl; [| reflexivity].
  apply Z.eqb_eq in E. lia.
Qed.

(** The float of a sample as one fraction over the temperature range. *)
Lemma temp_py_fraction (y_start temp_min temp_max temp : Z) (r : positive) :
  temp_range temp_min temp_max = Z.pos r ->
  (temp_py y_start temp_min temp_max temp
   == ((graph_y y_start + graph_height) * Z.pos r
       - (temp - temp_min) * graph_height) # r)%Q.
Proof.
  intros E. unfold temp_py, float_of. rewrite E.
  rewrite <- Qmake_Qdiv.
  unfold Qeq, Qminus, Qplus, Qopp, Qmult, inject_Z. simpl. lia.
Qed.

Lemma Qmake_le (a b : Z) (r : positive) : (a # r <= b # r)%Q <-> a <= b.
Proof. unfold Qle. simpl. nia. Qed.

Lemma Qmake_lt (a b : Z) (r : positive) : (a # r < b # r)%Q <-> a < b.
Proof. unfold Qlt. simpl. nia. Qed.

Lemma Qmake_nonneg (a : Z) (r : positive) : 0 <= a -> (0 <= a # r)%Q.
Proof. unfold Qle. simpl. lia. Qed.

Lemma Qmake_succ (a : Z) (r : positive) :
  ((a # r) + 1 == (a + Z.pos r) # r)%Q.
Proof. unfold Qeq, Qplus. simpl. lia. Qed.

Lemma temp_py_decreasing (y_start temp_min temp_max t1 t2 : Z) :
  temp_min <= temp_max -> t1 < t2 ->
  (temp_py y_start temp_min temp_max t2
   < temp_py y_start temp_min temp_max t1)%Q.
Proof.
  intros H Ht. pose proof (temp_range_pos _ _ H) as Hr.
  destruct (temp_range temp_min temp_max) as [| r | r] eqn:E; try lia.
  rewrite !(temp_py_fraction _ _ _ _ r E).
  apply Qmake_lt. unfold graph_height. lia.
Qed.

Lemma temp_pixel_y_mono (y_start temp_min temp_max t1 t2 : Z) :
  temp_min <= temp_max -> t1 <= t2 ->
  temp_pixel_y y_start temp_min temp_max t2
  <= temp_pixel_y y_start temp_min temp_max t1.
Proof.
  intros H Ht. unfold temp_pixel_y. apply py_int_mono.
  destruct (Z.eq_dec t1 t2) as [-> | N]; [apply Qle_refl |].
  apply Qlt_le_weak, temp_py_decreasing; [assumption | lia].
Qed.

Lemma temp_pixel_y_at_min (y_start temp_min temp_max : Z) :
  temp_pixel_y y_start temp_min temp_max temp_min
  = graph_y y_start + graph_height.
Proof.
  unfold temp_pixel_y. apply py_int_exact.
  unfold temp_py, float_of.
  rewrite Z.sub_diag. change (inject_Z 0) with 0%Q.
  unfold Qdiv. ring.
Qed.

Lemma temp_pixel_y_at_max (y_start temp_min temp_max : Z) :
  temp_min < temp_max ->
  temp_pixel_y y_start temp_min temp_max temp_max = graph_y y_start.
Proof.
  intros H. unfold temp_pixel_y. apply py_int_exact.
  pose proof (temp_range_lt _ _ H) as E.
  destruct (temp_max - temp_min) as [| r | r] eqn:D; try lia.
  rewrite (temp_py_fraction _ _ _ _ r E).
  unfold float_of, Qeq, inject_Z, graph_height. simpl. lia.
Qed.

(** With at least one pixel per degree, distinct integer temperatures
    are drawn on distinct rows. *)
Lemma temp_pixel_y_strict (y_start temp_min temp_max t1 t2 : Z) :
  0 <= graph_y y_start ->
  temp_min < temp_max -> temp_max - temp_min <= graph_height ->
  t1 < t2 -> t2 <= temp_max ->
  temp_pixel_y y_start temp_min temp_max t2
  < temp_pixel_y y_start temp_min temp_max t1.
Proof.
  intros Hy H Hr Ht Hm. unfold temp_pixel_y.
  pose proof (temp_range_lt _ _ H) as E.
  destruct (temp_max - temp_min) as [| r | r] eqn:D; try lia.
  apply py_int_gap.
  - rewrite (temp_py_fraction _ _ _ _ r E).
    apply Qmake_nonneg. unfold graph_height in *. nia.
  - rewrite !(temp_py_fraction _ _ _ _ r E), Qmake_succ.
    apply Qmake_le. unfold graph_height in *. nia.
Qed.

Lemma rain_pixel_y_ends (y_start : Z) :
  rain_pixel_y y_start 0 = graph_y y_start + graph_height /\
  rain_pixel_y y_start 100 = graph_y y_start.
Proof.
  unfold rain_pixel_y. split.
  - apply py_int_exact.
    unfold rain_py, float_of, Qeq, inject_Z. simpl. lia.
  - apply py_int_exact.
    unfold rain_py, float_of, Qeq, inject_Z, graph_height.
    simpl. lia.
Qed.

(** C4 (as amended). For temp_min < temp_max the float [py] of a
    temperature is affine in it with slope -graph_height / (temp_max -
    temp_min) and strictly decreasing; the pixel row [int(py)] of
    temp_min is the bottom edge graph_y + graph_height and that of
    temp_max is the top edge graph_y; pixel rows never increase with the
    temperature, and they strictly decrease when the band starts on the
    canvas and the range is at most graph_height degrees (so 40, 50, 60
    go to rows 337, 297, 257); 0% goes to the bottom edge and 100% to the
    top edge. *)
Theorem chart_scaling (y_start temp_min temp_max : Z) :
  temp_min < temp_max ->
  let bottom := graph_y y_start + graph_height in
  let top := graph_y y_start in
  let py := temp_py y_start temp_min temp_max in
  let pixel := temp_pixel_y y_start temp_min temp_max in
  (forall t,
     (py t == float_of bottom
              - float_of (t - temp_min)
                * (float_of graph_height / float_of (temp_max - temp_min)))%Q) /\
  (forall t1 t2, t1 < t2 -> (py t2 < py t1)%Q) /\
  pixel temp_min = bottom /\
  pixel temp_max = top /\
  (forall t1 t2, t1 <= t2 -> pixel t2 <= pixel t1) /\
  (0 <= top -> temp_max - temp_min <= graph_height ->
   forall t1 t2, t1 < t2 -> t2 <= temp_max -> pixel t2 < pixel t1) /\
  map (temp_pixel_y 245 40 60) [40; 50; 60] = [337; 297; 257] /\
  rain_pixel_y y_start 0 = bottom /\
  rain_pixel_y y_start 100 = top.
Proof.
  intros H bottom top py pixel. subst bottom top py pixel.
  repeat apply conj.
  - intros t. unfold temp_py. rewrite (temp_range_lt _ _ H).
    unfold Qdiv. ring.
  - intros t1 t2 Ht. apply temp_py_decreasing; [lia | exact Ht].
  - apply temp_pixel_y_at_min.
  - apply temp_pixel_y_at_max, H.
  - intros t1 t2 Ht. apply temp_pixel_y_mono; [lia | exact Ht].
  - intros Hy Hr t1 t2 Ht Hm. apply temp_pixel_y_strict; assumption.
  - reflexivity.
  - apply rain_pixel_y_ends.
  - apply rain_pixel_y_ends.
Qed.

Lemma chart_scaling_witness :
  temp_pixel_y 245 51 56 51 = 337 /\
  temp_pixel_y 245 51 56 56 = 257 /\
  temp_pixel_y 245 51 56 54 < temp_pixel_y 245 51 56 53.
Proof.
  destruct (chart_scaling 245 51 56) as (_ & _ & A & B & _ & S & _);
    [lia |].
  split; [exact A | split; [exact B |]].
  apply S; unfold graph_y, graph_height; lia.
Defined.

(** C4, the claim as stated fails: over a range wider than the band is
    high, here 0 to 200 degrees, the temperatures 1 and 2 are drawn on
    the same pixel row 336, in exact and in binary64 arithmetic alike. *)
Lemma wide_range_shares_pixel_rows :
  exists temp_min temp_max t1 t2,
    temp_min < temp_max /\ temp_min <= t1 /\ t1 < t2 /\ t2 <= temp_max /\
    temp_pixel_y 245 temp_min temp_max t1 = 336 /\
    temp_pixel_y 245 temp_min temp_max t2 = 336 /\
    Binary64.temp_pixel_y 245 temp_min temp_max t1 = 336 /\
    Binary64.temp_pixel_y 245 temp_min temp_max t2 = 336 /\
    ~ (temp_pixel_y 245 temp_min temp_max t2
       < temp_pixel_y 245 temp_min temp_max t1).
Proof.
  exists 0, 200, 1, 2.
  repeat split; try lia; try (vm_compute; reflexivity).
  vm_compute. discriminate.
Qed.

(** ** A flat temperature series *)

Lemma fold_min_const (T : Z) (xs : list Z) :
  (forall x, In x xs -> x = T) -> fold_left Z.min xs T = T.
Proof.
  induction xs as [| x xs IH]; intros H; [reflexivity |].
  simpl. rewrite (H x) by (left; reflexivity). rewrite Z.min_id.
  apply IH. intros y Hy. apply H. right. exact Hy.
Qed.

Lemma fold_max_const (T : Z) (xs : list Z) :
  (forall x, In x xs -> x = T) -> fold_left Z.max xs T = T.
Proof.
  induction xs as [| x xs IH]; intros H; [reflexivity |].
  simpl. rewrite (H x) by (left; reflexivity). rewrite Z.max_id.
  apply IH. intros y Hy. apply H. right. exact Hy.
Qed.

Lemma py_min_max_const (T : Z) (l : list Z) :
  l <> [] -> (forall x, In x l -> x = T) ->
  py_min l = T /\ py_max l = T.
Proof.
  intros N H. destruct l as [| x xs]; [congruence |].
  assert (x = T) as -> by (apply H; left; reflexivity).
  simpl. split; [apply fold_min_const | apply fold_max_const];
    intros y Hy; apply H; right; exact Hy.
Qed.

Lemma In_enumerate {A} (l : list A) (i : Z) (a : A) :
  In (i, a) (enumerate l) -> In a l.
Proof. unfold enumerate. apply in_combine_r. Qed.

Lemma temp_points_flat (y_start T : Z) (hourly : list HourlyPoint) :
  (forall h, In h hourly -> hp_temp h = T) ->
  Forall (fun p : point => snd p = graph_y y_start + graph_height)
         (temp_points y_start T T hourly).
Proof.
  intros H. unfold temp_points. cbv zeta.
  apply List.Forall_forall. intros p Hp.
  apply in_map_iff in Hp as [[i t] [<- Hi]]. simpl.
  apply In_enumerate, in_map_iff in Hi as [h [<- Hh]].
  rewrite (H h Hh). apply temp_pixel_y_at_min.
Qed.

(** Smoothing a polyline whose points share one y keeps that y. *)
Lemma bezier_curve_flat (points : list point) (s y : Z) :
  Forall (fun p : point => snd p = y) points ->
  Forall (fun p : point => snd p = y) (bezier_curve points s).
Proof.
  intros H. destruct (Nat.lt_ge_cases (length points) 2) as [L | L].
  { rewrite bezier_curve_short by exact L. exact H. }
  rewrite bezier_curve_long by exact L.
  rewrite List.Forall_forall in H.
  apply List.Forall_app; split.
  - apply List.Forall_flat_map, List.Forall_forall. intros i Hi.
    apply In_range in Hi.
    destruct (getitem_in_range points i Hi) as (I0 & I1 & I2 & I3).
    unfold bezier_segment. cbv zeta.
    apply List.Forall_forall. intros p Hp.
    apply in_map_iff in Hp as [k [<- _]]. simpl.
    rewrite !(H _ (getitem_In points _ I0)), !(H _ (getitem_In points _ I1)),
      !(H _ (getitem_In points _ I2)), !(H _ (getitem_In points _ I3)).
    apply py_int_exact, catmull_rom_constant.
  - constructor; [| constructor].
    apply H, getitem_In. lia.
Qed.

(** C1 (as amended). For every hourly series of at least two points whose
    temperatures are all equal, the range is taken as 1 (no division by
    zero), [draw_graph_section] draws the chart, and every temperature
    sample, as well as every point of the smoothed temperature curve,
    lies on the bottom edge of the band, y = graph_y + graph_height. *)
Theorem flat_series_on_bottom_edge
    (hourly : list HourlyPoint) (y_start T : Z) :
  (2 <= length hourly)%nat ->
  (forall h, In h hourly -> hp_temp h = T) ->
  let temps := map hp_temp hourly in
  temp_range (py_min temps) (py_max temps) = 1 /\
  exists chart,
    draw_graph_section hourly (py_min temps) (py_max temps) y_start
    = Some chart /\
    Forall (fun p : point => snd p = graph_y y_start + graph_height)
           (ch_temp_points chart) /\
    Forall (fun p : point => snd p = graph_y y_start + graph_height)
           (ch_temp_curve chart).
Proof.
  intros L H temps.
  destruct (py_min_max_const T temps) as [Emin Emax].
  { subst temps. destruct hourly; [simpl in L; lia | discriminate]. }
  { subst temps. intros x Hx. apply in_map_iff in Hx as [h [<- Hh]].
    apply H, Hh. }
  rewrite Emin, Emax. split.
  { unfold temp_range. rewrite Z.eqb_refl. reflexivity. }
  unfold draw_graph_section.
  destruct (Z.of_nat (length hourly) <? 2) eqn:E;
    [apply Z.ltb_lt in E; lia |].
  eexists. split; [reflexivity |]. simpl.
  pose proof (temp_points_flat y_start T hourly H) as F.
  split; [exact F |].
  destruct (1 <? Z.of_nat (length (temp_points y_start T T hourly)));
    [apply bezier_curve_flat |]; exact F.
Qed.

Lemma flat_series_on_bottom_edge_witness :
  let hourly := [ {| hp_time := "Now"; hp_temp := 54; hp_rain_chance := 0 |};
                  {| hp_time := "3 pm"; hp_temp := 54; hp_rain_chance := 20 |};
                  {| hp_time := "6 pm"; hp_temp := 54; hp_rain_chance := 35 |} ] in
  let temps := map hp_temp hourly in
  temp_range (py_min temps) (py_max temps) = 1 /\
  exists chart,
    draw_graph_section hourly (py_min temps) (py_max temps) 245 = Some chart /\
    Forall (fun p : point => snd p = graph_y 245 + graph_height)
           (ch_temp_points chart) /\
    Forall (fun p : point => snd p = graph_y 245 + graph_height)
           (ch_temp_curve chart).
Proof.
  apply (flat_series_on_bottom_edge _ 245 54).
  - simpl. lia.
  - intros h [<- | [<- | [<- | []]]]; reflexivity.
Defined.

(** C1, the claim as stated fails: two samples of 50 degrees are both
    drawn on row 337, the bottom edge of the band, and not on its
    vertical midpoint, row 297. *)
Lemma flat_series_misses_midpoint :
  exists hourly chart,
    (2 <= length hourly)%nat /\
    (forall h, In h hourly -> hp_temp h = 50) /\
    draw_graph_section hourly (py_min (map hp_temp hourly))
                       (py_max (map hp_temp hourly)) 245 = Some chart /\
    ch_temp_points chart = [(85, 337); (675, 337)] /\
    Binary64.temp_pixel_y 245 50 50 50 = 337 /\
    graph_y 245 + graph_height / 2 = 297 /\
    ~ Forall (fun p : point => snd p = graph_y 245 + graph_height / 2)
             (ch_temp_points chart).
Proof.
  exists [ {| hp_time := "Now"; hp_temp := 50; hp_rain_chance := 0 |};
           {| hp_time := "3 pm"; hp_temp := 50; hp_rain_chance := 0 |} ].
  eexists. split; [simpl; lia |]. split.
  { intros h [<- | [<- | []]]; reflexivity. }
  split; [vm_compute; reflexivity |].
  split; [reflexivity |]. split; [vm_compute; reflexivity |].
  split; [reflexivity |].
  intros F. inversion F as [| p l Hp _]. vm_compute in Hp. discriminate Hp.
Qed.

(** ** The yellow recolouring *)

Lemma py_int_fraction (a : Z) (d : positive) :
  0 <= a -> py_int (a # d) = a / Z.pos d.
Proof. intros H. unfold py_int. simpl. apply Z.quot_div_nonneg; lia. Qed.

Lemma yellow_red_channel (r g b : Z) :
  0 <= r + g + b ->
  py_int (float_of 255 * brightness r g b) = (r + g + b) / 3.
Proof.
  intros H. rewrite <- (py_int_fraction (r + g + b) 3 H).
  apply py_int_Qeq.
  unfold brightness, float_of, Qeq, Qdiv, Qmult, Qinv, inject_Z. simpl. lia.
Qed.

Lemma yellow_green_channel (r g b : Z) :
  0 <= r + g + b ->
  py_int (float_of 220 * brightness r g b) = 44 * (r + g + b) / 153.
Proof.
  intros H. rewrite <- (py_int_fraction (44 * (r + g + b)) 153) by lia.
  apply py_int_Qeq.
  unfold brightness, float_of, Qeq, Qdiv, Qmult, Qinv, inject_Z. simpl. lia.
Qed.

Lemma yellow_blue_channel (r g b : Z) :
  py_int (float_of 0 * brightness r g b) = 0.
Proof.
  apply (py_int_exact _ 0).
  unfold brightness, float_of, Qeq, Qdiv, Qmult, Qinv, inject_Z. simpl. lia.
Qed.

Lemma brightness_le (r g b r' g' b' : Z) :
  r' + g' + b' <= r + g + b ->
  (brightness r' g' b' <= brightness r g b)%Q.
Proof.
  intros H.
  unfold brightness, float_of, Qle, Qdiv, Qmult, Qinv, inject_Z. simpl. lia.
Qed.

Lemma lookup_map {A B} (f : A -> B) (l : list A) (i : nat) :
  map f l !! i = f <$> l !! i.
Proof. exact (list_lookup_fmap f l i). Qed.

Lemma getpixel_make_icon_yellow (icon : image) (x y : nat) :
  getpixel (make_icon_yellow icon) x y = yellow_pixel <$> getpixel icon x y.
Proof.
  unfold getpixel, make_icon_yellow. rewrite lookup_map.
  destruct (icon !! y) as [row |]; simpl; [| reflexivity].
  apply lookup_map.
Qed.

Lemma make_icon_yellow_size (icon : image) :
  length (make_icon_yellow icon) = length icon /\
  Forall2 (fun row' row => length row' = length row)
          (make_icon_yellow icon) icon.
Proof.
  unfold make_icon_yellow. split; [apply length_map |].
  induction icon as [| row icon IH]; simpl; constructor;
    [apply length_map | exact IH].
Qed.

(** [load_icon] passes exactly the sunrise and sunset glyphs through
    [make_icon_yellow] (after the enhancement chain); a missing asset
    gives the transparent placeholder. *)
Lemma load_icon_yellows_sun_glyphs
    (assets : string -> option image) (enhance : bool -> Z -> image -> image)
    (name : string) (size : Z) (w : Q) (force_day : bool) (raw : image) :
  In name ["sunrise"; "sunset"] ->
  assets ("icons/" ++ name ++ ".png")%string = Some raw ->
  load_icon assets enhance name size w force_day
  = make_icon_yellow (enhance true size raw).
Proof.
  intros [<- | [<- | []]] A; unfold load_icon; cbn; rewrite A; reflexivity.
Qed.

Lemma load_icon_missing_asset
    (assets : string -> option image) (enhance : bool -> Z -> image -> image)
    (name : string) (size : Z) (w : Q) (force_day : bool) :
  assets (load_icon_path name w force_day) = None ->
  load_icon assets enhance name size w force_day = blank_icon size.
Proof. intros A. unfold load_icon. cbv zeta. rewrite A. reflexivity. Qed.

(** C8 (as amended). [make_icon_yellow] rewrites the image pixel by
    pixel.  A pixel with alpha > 0 becomes the yellow (255, 220, 0)
    scaled by the original brightness (r + g + b) / 3 / 255, each channel
    truncated, that is ((r + g + b) // 3, 44 * (r + g + b) // 153, 0),
    with its alpha kept; the mean brightness of the result is at most
    that of the original (it is not preserved).  A pixel with alpha 0 is
    left as it is. *)
Theorem make_icon_yellow_contract
    (icon : image) (x y : nat) (r g b a : Z) :
  getpixel icon x y = Some (r, g, b, a) ->
  0 <= r <= 255 -> 0 <= g <= 255 -> 0 <= b <= 255 -> 0 <= a <= 255 ->
  exists p',
    getpixel (make_icon_yellow icon) x y = Some p' /\
    (a = 0 -> p' = (r, g, b, a)) /\
    (0 < a ->
     p' = (py_int (float_of 255 * brightness r g b),
           py_int (float_of 220 * brightness r g b),
           py_int (float_of 0 * brightness r g b), a) /\
     p' = ((r + g + b) / 3, 44 * (r + g + b) / 153, 0, a) /\
     (mean_brightness p' <= mean_brightness (r, g, b, a))%Q).
Proof.
  intros G Hr Hg Hb Ha.
  exists (yellow_pixel (r, g, b, a)).
  rewrite getpixel_make_icon_yellow, G. split; [reflexivity |].
  unfold yellow_pixel, yellow. split.
  - intros ->. reflexivity.
  - intros Hpos. apply Z.ltb_lt in Hpos. rewrite Hpos.
    split; [reflexivity |].
    rewrite yellow_red_channel, yellow_green_channel, yellow_blue_channel
      by lia.
    split; [reflexivity |].
    unfold mean_brightness. apply brightness_le.
    pose proof (Z.mul_div_le (r + g + b) 3).
    pose proof (Z.mul_div_le (44 * (r + g + b)) 153).
    lia.
Qed.

Lemma make_icon_yellow_contract_witness :
  exists p',
    getpixel (make_icon_yellow [[(0, 0, 0, 0); (200, 100, 60, 128)]]) 1 0
    = Some p' /\
    (128 = 0 -> p' = (200, 100, 60, 128)) /\
    (0 < 128 ->
     p' = (py_int (float_of 255 * brightness 200 100 60),
           py_int (float_of 220 * brightness 200 100 60),
           py_int (float_of 0 * brightness 200 100 60), 128) /\
     p' = ((200 + 100 + 60) / 3, 44 * (200 + 100 + 60) / 153, 0, 128) /\
     (mean_brightness p' <= mean_brightness (200, 100, 60, 128)%Z)%Q).
Proof.
  apply (make_icon_yellow_contract
           [[(0, 0, 0, 0); (200, 100, 60, 128)]] 1 0 200 100 60 128);
    [reflexivity | lia | lia | lia | lia].
Defined.

(** C8, the claim as stated fails: the opaque pure red pixel becomes
    (85, 73, 0), in exact and in binary64 arithmetic alike; its mean
    brightness, its Rec. 601 luma and its HSV value all change, so its
    luminance is not preserved. *)
Lemma yellow_changes_luminance :
  exists p : pixel,
    p = (255, 0, 0, 255) /\
    yellow_pixel p = (85, 73, 0, 255) /\
    ~ (mean_brightness (yellow_pixel p) == mean_brightness p)%Q /\
    luma601 (yellow_pixel p) <> luma601 p /\
    hsv_value (yellow_pixel p) <> hsv_value p /\
    map (fun y => Binary64.yellow_channel y (255 + 0 + 0)) [255; 220; 0]
    = [85; 73; 0].
Proof.
  exists (255, 0, 0, 255).
  split; [reflexivity |]. split; [reflexivity |].
  split; [vm_compute; discriminate |].
  split; [vm_compute; discriminate |].
  split; [vm_compute; discriminate |].
  vm_compute. reflexivity.
Qed.

(** ** Forecast cards and the heap *)

Lemma length_enumerate {A} (l : list A) : length (enumerate l) = length l.
Proof.
  unfold enumerate. rewrite length_combine, length_map, length_seq.
  apply Nat.min_id.
Qed.

Lemma for_each_length {A B} (body : A -> Run B) (l : list A)
    (h h' : heap) (bs : list B) :
  for_each body l h = (Returned bs, h') -> length bs = length l.
Proof.
  revert h h' bs. induction l as [| a l IH]; intros h h' bs E; simpl in E.
  - inversion E. reflexivity.
  - unfold bind in E at 1.
    destruct (body a h) as [[b | e] h1]; [| discriminate].
    unfold bind in E at 1.
    destruct (for_each body l h1) as [[cs | e] h2] eqn:F; [| discriminate].
    inversion E. simpl. f_equal. eapply IH, F.
Qed.

Lemma draw_forecast_card_count (width y_start : Z) (forecast_data : list loc)
    (h h' : heap) (cards : list Card) :
  draw_forecast width forecast_data y_start h = (Returned cards, h') ->
  length cards = Nat.min 6 (length forecast_data).
Proof.
  unfold draw_forecast, take_slice. intros E.
  destruct forecast_data as [| day rest]; [inversion E; reflexivity |].
  destruct (firstn 6 (day :: rest)) as [| d0 ds] eqn:F; [discriminate F |].
  apply for_each_length in E.
  rewrite E, length_enumerate, <- F. apply length_firstn.
Qed.

(** A card is drawn from reads only. *)
Lemma draw_forecast_card_reads (day_data : loc) (x y w ht : Z) (h : heap) :
  snd (draw_forecast_card day_data x y w ht h) = h.
Proof.
  unfold draw_forecast_card, bind, deref, getkey, get_default, ret, raise.
  destruct (h !! day_data) as [d |]; [| reflexivity].
  destruct (d !! "day_name") as [[] |]; try reflexivity.
  destruct (d !! "icon") as [[] |]; try reflexivity;
    destruct (d !! "max_temp"); try reflexivity;
    destruct (d !! "min_temp"); reflexivity.
Qed.

Lemma fresh_not_allocated (h0 h : heap) :
  h0 ⊆ h -> h0 !! fresh (dom h) = None.
Proof.
  intros S. apply (lookup_weaken_None h0 h); [| exact S].
  apply not_elem_of_dom, is_fresh.
Qed.

(** One round of the loop only writes to the copy it has just made. *)
Lemma draw_forecast_step_frame (y_start cw i : Z) (day : loc) (h0 h : heap) :
  h0 ⊆ h -> h0 ⊆ snd (draw_forecast_step y_start cw i day h).
Proof.
  intros S. unfold draw_forecast_step, bind, dict_copy.
  destruct (h !! day) as [d |]; [| exact S].
  pose proof (fresh_not_allocated h0 h S) as N.
  set (l' := fresh (dom h)) in *.
  destruct (i =? 0).
  - unfold dict_setitem. rewrite lookup_insert_eq.
    match goal with
    | |- _ ⊆ snd (draw_forecast_card ?a ?b ?c ?d ?e ?f) =>
        rewrite (surjective_pairing (draw_forecast_card a b c d e f)),
          draw_forecast_card_reads
    end.
    simpl. rewrite insert_insert_eq.
    apply insert_subseteq_r; assumption.
  - unfold ret.
    match goal with
    | |- _ ⊆ snd (draw_forecast_card ?a ?b ?c ?d ?e ?f) =>
        rewrite (surjective_pairing (draw_forecast_card a b c d e f)),
          draw_forecast_card_reads
    end.
    simpl. apply insert_subseteq_r; assumption.
Qed.

Lemma for_each_frame {A B} (body : A -> Run B) (l : list A) (h0 : heap) :
  (forall a h, h0 ⊆ h -> h0 ⊆ snd (body a h)) ->
  forall h, h0 ⊆ h -> h0 ⊆ snd (for_each body l h).
Proof.
  intros Hbody. induction l as [| a l IH]; intros h S; simpl; [exact S |].
  unfold bind at 1. pose proof (Hbody a h S) as S1.
  destruct (body a h) as [[b | e] h1]; simpl in S1; [| exact S1].
  unfold bind at 1. pose proof (IH h1 S1) as S2.
  destruct (for_each body l h1) as [[bs | e] h2]; exact S2.
Qed.

Lemma draw_forecast_frame (width y_start : Z) (forecast_data : list loc)
    (h : heap) :
  h ⊆ snd (draw_forecast width forecast_data y_start h).
Proof.
  unfold draw_forecast.
  destruct forecast_data as [| day rest]; [reflexivity |].
  destruct (take_slice 6 (day :: rest)) as [| d0 ds]; [reflexivity |].
  apply for_each_frame; [| reflexivity].
  intros [i a] h1 S. apply draw_forecast_step_frame, S.
Qed.

(** The card drawn from a dict whose day name is a string carries it. *)
Lemma draw_forecast_card_label (l : loc) (x y w ht : Z) (h h' : heap)
    (d : gmap string pyval) (name : string) (c : Card) :
  h !! l = Some d -> d !! "day_name" = Some (VStr name) ->
  draw_forecast_card l x y w ht h = (Returned c, h') ->
  card_day_name c = name.
Proof.
  intros Hl Hn. unfold draw_forecast_card, bind, deref, getkey, get_default.
  rewrite Hl, Hn. unfold ret, raise.
  destruct (d !! "icon") as [[] |]; try discriminate;
    destruct (d !! "max_temp"); try discriminate;
    destruct (d !! "min_temp"); try discriminate;
    intros E; inversion E; reflexivity.
Qed.

(** The first card is labelled "Today", whatever the entry says. *)
Lemma first_card_is_today (width y_start : Z) (forecast_data : list loc)
    (h h' : heap) (c : Card) (cs : list Card) :
  draw_forecast width forecast_data y_start h = (Returned (c :: cs), h') ->
  card_day_name c = "Today".
Proof.
  unfold draw_forecast, take_slice.
  destruct forecast_data as [| day rest]; [discriminate |].
  rewrite firstn_cons. unfold enumerate. simpl length. simpl seq. simpl map.
  simpl combine. simpl for_each.
  set (cw := card_width width _). unfold bind at 1.
  destruct (draw_forecast_step y_start cw (Z.of_nat 0) day h)
    as [[c0 | e] h1] eqn:E0; [| discriminate].
  unfold bind at 1.
  match goal with
  | |- context [for_each ?b ?l h1] => destruct (for_each b l h1) as [[bs | e] h2]
  end; [| discriminate].
  unfold ret. intros E. inversion E; subst c0 bs h2. clear E.
  unfold draw_forecast_step, bind, dict_copy in E0.
  destruct (h !! day) as [d |]; [| discriminate].
  simpl in E0. unfold dict_setitem in E0.
  rewrite lookup_insert_eq, insert_insert_eq in E0.
  eapply draw_forecast_card_label; [| | exact E0].
  - apply lookup_insert_eq.
  - apply lookup_insert_eq.
Qed.

(** C10. [draw_forecast] leaves every object that existed before the call
    as it was, whether it returns or raises: the "Today" label is written
    to a fresh copy.  In particular every entry of the input list still
    points to the dict it pointed to, day name included. *)
Theorem draw_forecast_keeps_input
    (width y_start : Z) (forecast_data : list loc) (h : heap) :
  (forall l d, h !! l = Some d ->
     snd (draw_forecast width forecast_data y_start h) !! l = Some d) /\
  (forall i day d, forecast_data !! i = Some day -> h !! day = Some d ->
     snd (draw_forecast width forecast_data y_start h) !! day = Some d /\
     (snd (draw_forecast width forecast_data y_start h) !! day
        ≫= (.!! "day_name")) = d !! "day_name").
Proof.
  pose proof (draw_forecast_frame width y_start forecast_data h) as S.
  assert (K : forall l d, h !! l = Some d ->
     snd (draw_forecast width forecast_data y_start h) !! l = Some d).
  { intros l d Hl. exact (lookup_weaken _ _ _ _ Hl S). }
  split; [exact K |].
  intros i day d _ Hd. rewrite (K day d Hd). split; reflexivity.
Qed.

(** *** [draw_forecast] returns on well-formed entries *)

Lemma drawable_today (d : gmap string pyval) :
  drawable d -> drawable (<["day_name" := VStr "Today"]> d).
Proof.
  intros (_ & I & M & N). repeat split.
  - exists "Today". apply lookup_insert_eq.
  - rewrite lookup_insert_ne by discriminate. exact I.
  - rewrite lookup_insert_ne by discriminate. exact M.
  - rewrite lookup_insert_ne by discriminate. exact N.
Qed.

Lemma day_ok_weaken (h h' : heap) (l : loc) :
  h ⊆ h' -> day_ok h l -> day_ok h' l.
Proof.
  intros S (d & Hd & D). exists d. split; [| exact D].
  exact (lookup_weaken _ _ _ _ Hd S).
Qed.

Lemma drawableb_sound (d : gmap string pyval) :
  drawableb d = true -> drawable d.
Proof.
  unfold drawableb, drawable. intros H.
  apply andb_true_iff in H as [H Hmin].
  apply andb_true_iff in H as [H Hmax].
  apply andb_true_iff in H as [Hname Hicon].
  repeat split.
  - destruct (d !! "day_name") as [[] |]; try discriminate. eauto.
  - destruct (d !! "icon") as [[] |]; try discriminate; eauto.
  - destruct (d !! "max_temp"); [eauto | discriminate].
  - destruct (d !! "min_temp"); [eauto | discriminate].
Qed.

Lemma days_okb_sound (h : heap) (l : list loc) :
  forallb (day_okb h) l = true -> Forall (day_ok h) l.
Proof.
  intros H. apply List.Forall_forall. intros x Hx.
  rewrite forallb_forall in H. specialize (H x Hx).
  unfold day_okb in H. unfold day_ok.
  destruct (h !! x) as [d |]; [| discriminate].
  exists d. split; [reflexivity | apply drawableb_sound, H].
Qed.

Lemma draw_forecast_card_returns (l : loc) (x y w ht : Z) (h : heap) :
  day_ok h l -> exists c, draw_forecast_card l x y w ht h = (Returned c, h).
Proof.
  intros (d & Hd & (name & Hn) & I & (vmax & Hmax) & (vmin & Hmin)).
  unfold draw_forecast_card, bind, deref, getkey, get_default, ret.
  rewrite Hd, Hn.
  destruct I as [I | (code & I)]; rewrite I, Hmax, Hmin; eexists; reflexivity.
Qed.

Lemma draw_forecast_step_returns (y_start cw i : Z) (day : loc) (h : heap) :
  day_ok h day ->
  exists c h', draw_forecast_step y_start cw i day h = (Returned c, h').
Proof.
  intros (d & Hd & D). unfold draw_forecast_step, bind, dict_copy.
  rewrite Hd. set (l' := fresh (dom h)).
  destruct (i =? 0).
  - unfold dict_setitem. rewrite lookup_insert_eq, insert_insert_eq.
    match goal with
    | |- exists c h', draw_forecast_card ?a ?b ?c0 ?d0 ?e ?f = _ =>
        destruct (draw_forecast_card_returns a b c0 d0 e f) as [c Hc]
    end.
    + eexists. split; [apply lookup_insert_eq | apply drawable_today, D].
    + rewrite Hc. eauto.
  - unfold ret.
    match goal with
    | |- exists c h', draw_forecast_card ?a ?b ?c0 ?d0 ?e ?f = _ =>
        destruct (draw_forecast_card_returns a b c0 d0 e f) as [c Hc]
    end.
    + eexists. split; [apply lookup_insert_eq | exact D].
    + rewrite Hc. eauto.
Qed.

Lemma for_each_step_returns (y_start cw : Z) (l : list (Z * loc)) :
  forall h, Forall (fun p => day_ok h (snd p)) l ->
  exists cards h',
    for_each (fun '(i, day) => draw_forecast_step y_start cw i day) l h
    = (Returned cards, h').
Proof.
  induction l as [| [i day] l IH]; intros h F; simpl.
  - unfold ret. eauto.
  - inversion F as [| p l0 Hday Hrest]; subst. simpl in Hday.
    destruct (draw_forecast_step_returns y_start cw i day h Hday)
      as (c & h1 & E).
    pose proof (draw_forecast_step_frame y_start cw i day h h
                  (reflexivity h)) as S.
    rewrite E in S. simpl in S.
    unfold bind at 1. rewrite E.
    destruct (IH h1) as (cs & h2 & E').
    { eapply List.Forall_impl; [| exact Hrest].
      intros p. apply day_ok_weaken, S. }
    unfold bind at 1. rewrite E'. unfold ret. eauto.
Qed.

Lemma draw_forecast_returns (width y_start : Z) (forecast_data : list loc)
    (h : heap) :
  Forall (day_ok h) forecast_data ->
  exists cards h',
    draw_forecast width forecast_data y_start h = (Returned cards, h').
Proof.
  intros F. unfold draw_forecast.
  destruct forecast_data as [| day rest]; [unfold ret; eauto |].
  destruct (take_slice 6 (day :: rest)) as [| d0 ds] eqn:T;
    [unfold ret; eauto |].
  apply for_each_step_returns.
  apply List.Forall_forall. intros [i l] Hin. simpl.
  apply In_enumerate in Hin. rewrite <- T in Hin.
  unfold take_slice in Hin. apply list_elem_of_In, subseteq_take in Hin.
  rewrite Forall_forall in F. apply F, Hin.
Qed.

Lemma draw_forecast_keeps_input_witness :
  snd (draw_forecast 800 [1; 2; 3]%positive 370 test_heap) !! 1%positive
  = Some (test_day 0) /\
  (snd (draw_forecast 800 [1; 2; 3]%positive 370 test_heap) !! 1%positive
     ≫= (.!! "day_name")) = Some (VStr "Fri") /\
  card_day_name <$> head (match fst (draw_forecast 800 [1; 2; 3]%positive
                                        370 test_heap) with
                          | Returned cards => cards
                          | Raised _ => []
                          end) = Some "Today".
Proof.
  destruct (draw_forecast_keeps_input 800 370 [1; 2; 3]%positive test_heap)
    as [_ K].
  destruct (K 0%nat 1%positive (test_day 0)) as [A B];
    [reflexivity | vm_compute; reflexivity |].
  split; [exact A |]. split; [rewrite B; vm_compute; reflexivity |].
  vm_compute. reflexivity.
Defined.

(** ** Clipping of the rendered sequences *)

Lemma length_temp_points (y_start tmin tmax : Z) (hourly : list HourlyPoint) :
  length (temp_points y_start tmin tmax hourly) = length hourly.
Proof.
  unfold temp_points. cbv zeta.
  rewrite length_map, length_enumerate. apply length_map.
Qed.

Lemma length_rain_points (y_start : Z) (hourly : list HourlyPoint) :
  length (rain_points y_start hourly) = length hourly.
Proof.
  unfold rain_points. cbv zeta. rewrite length_map. apply length_enumerate.
Qed.

Lemma length_take_slice {A} (k : nat) (l : list A) :
  (length (take_slice k l) <= k)%nat.
Proof. apply firstn_le_length. Qed.

Lemma prepared_lengths (weather_data : option WeatherData)
    (data : RenderModel) :
  prepare_template_data weather_data = Some data ->
  (length (rm_hourly_data data) <= 8)%nat /\
  (length (rm_forecast data) <= 7)%nat.
Proof.
  unfold prepare_template_data. intros E.
  destruct weather_data as [wd |]; [| discriminate].
  destruct (wd_current wd) as [current |]; [| discriminate].
  apply (inj Some) in E. subst data.
  cbn [rm_hourly_data rm_forecast]. split.
  - rewrite length_map, length_enumerate. apply length_take_slice.
  - apply length_take_slice.
Qed.

(** C9. For every weather record that is rendered, the hourly sequence
    handed to the chart renderer, and with it each series of chart
    samples, has at most 8 points, and the forecast row has at most 6
    cards, however many hourly and daily entries the record carries. *)
Theorem rendered_sequences_are_clipped
    (weather_data : option WeatherData) (data : RenderModel) :
  prepare_template_data weather_data = Some data ->
  (length (rm_hourly_data data) <= 8)%nat /\
  (forall chart,
     draw_graph_section (rm_hourly_data data) (rm_temp_min data)
                        (rm_temp_max data) 245 = Some chart ->
     (length (ch_temp_points chart) <= 8)%nat /\
     (length (ch_rain_points chart) <= 8)%nat) /\
  (forall width h cards h',
     draw_forecast width (rm_forecast data) 370 h = (Returned cards, h') ->
     (length cards <= 6)%nat).
Proof.
  intros E. destruct (prepared_lengths _ _ E) as [L _].
  split; [exact L |]. split.
  - intros chart. unfold draw_graph_section.
    destruct (Z.of_nat (length (rm_hourly_data data)) <? 2); [discriminate |].
    intros C. apply (inj Some) in C. subst chart.
    cbn [ch_temp_points ch_rain_points].
    rewrite length_temp_points, length_rain_points. split; exact L.
  - intros width h cards h' D.
    rewrite (draw_forecast_card_count _ _ _ _ _ _ D). apply Nat.le_min_l.
Qed.

Lemma rendered_sequences_are_clipped_witness :
  match prepare_template_data (Some test_data) with
  | Some data =>
      (length (rm_hourly_data data) <= 8)%nat /\
      match draw_forecast 800 (rm_forecast data) 370 test_heap with
      | (Returned cards, _) => (length cards <= 6)%nat
      | (Raised _, _) => False
      end
  | None => False
  end.
Proof.
  pose proof (rendered_sequences_are_clipped (Some test_data)) as H.
  destruct (prepare_template_data (Some test_data)) as [data |] eqn:E;
    [| discriminate E].
  destruct (H data eq_refl) as (A & _ & C). split; [exact A |].
  assert (F : Forall (day_ok test_heap) (rm_forecast data)).
  { apply (inj Some) in E. subst data. cbn [rm_forecast].
    apply days_okb_sound. vm_compute. reflexivity. }
  destruct (draw_forecast_returns 800 370 _ _ F) as (cards & h' & D).
  rewrite D. exact (C _ _ _ _ D).
Defined.

(** The sample record has 11 hourly and 7 daily entries; 8 points and 6
    cards are drawn from it. *)
Example test_display_is_clipped :
  length test_hourly = 11%nat /\
  (length <$> (rm_hourly_data <$> prepare_template_data (Some test_data)))
  = Some 8%nat /\
  length (match fst (draw_forecast 800 [1; 2; 3; 4; 5; 6; 7]%positive
                                   370 test_heap) with
          | Returned cards => cards
          | Raised _ => []
          end) = 6%nat.
Proof.
  split; [vm_compute; reflexivity |].
  split; vm_compute; reflexivity.
Qed.

(** ** A cycle without weather data *)

(** C2. Called with [None], or with a record that has no 'current'
    entry, [update_display] returns without raising, but all it does is
    print "No weather data available": the panel and the saved image
    keep what they held and nothing new is drawn; the same holds for the
    call [update_weather] makes to "show error on display". *)
Theorem update_display_without_data
    (width : Z) (weather_data : option WeatherData) (dev : Device)
    (h : heap) :
  no_current weather_data = true ->
  update_display width weather_data dev h
  = (print "No weather data available" dev, h) /\
  dev_screen (fst (update_display width weather_data dev h))
  = dev_screen dev /\
  dev_png (fst (update_display width weather_data dev h)) = dev_png dev /\
  dev_screen (fst (update_weather width weather_data dev h))
  = dev_screen dev.
Proof.
  intros N. unfold update_weather. rewrite N.
  unfold update_display. rewrite N. simpl. repeat split; reflexivity.
Qed.

Lemma update_display_without_data_witness :
  let dev := {| dev_screen := None; dev_png := None; dev_stdout := [] |} in
  update_display 800 None dev test_heap
  = (print "No weather data available" dev, test_heap) /\
  dev_screen (fst (update_display 800 None dev test_heap)) = None /\
  dev_png (fst (update_display 800 None dev test_heap)) = None /\
  dev_screen (fst (update_weather 800 None dev test_heap)) = None.
Proof.
  intros dev.
  apply (update_display_without_data 800 None dev test_heap). reflexivity.
Defined.

(** With the sample record the cycle does reach the panel: six cards, the
    first one labelled "Today", and a chart of eight samples whose
    smoothed curves have 7 * 20 + 1 points. *)
Example test_display_renders :
  match dev_screen
          (fst (update_display 800 (Some test_data)
                  {| dev_screen := None; dev_png := None; dev_stdout := [] |}
                  test_heap)) with
  | Some img =>
      map card_day_name (fr_cards img)
      = ["Today"; "Sat"; "Sun"; "Mon"; "Tue"; "Wed"] /\
      fr_main_icon img = "icons/partly_cloudy_day.png" /\
      match fr_chart img with
      | Some chart =>
          map snd (ch_temp_points chart)
          = [337; 325; 314; 302; 291; 279; 268; 257] /\
          length (ch_temp_curve chart) = 141%nat /\
          length (ch_rain_curve chart) = 141%nat
      | None => False
      end
  | None => False
  end.
Proof. vm_compute. repeat split. Qed.

(** ** Exact and binary64 arithmetic agree on the dashboard's ranges *)

Lemma forallb_nested {A B} (check : A -> B -> bool) (la : list A)
    (lb : A -> list B) :
  forallb (fun a => forallb (check a) (lb a)) la = true ->
  forall a b, In a la -> In b (lb a) -> check a b = true.
Proof.
  intros C a b Ha Hb. rewrite forallb_forall in C.
  specialize (C a Ha). rewrite forallb_forall in C. exact (C b Hb).
Qed.

(** The exhaustive comparisons: every range r = 1 .. 150 with every
    offset a = 0 .. r, every probability 0 .. 100, every channel sum
    0 .. 765 with each channel of the yellow. *)
Lemma binary64_temp_agrees :
  forallb (fun r =>
             forallb (fun a => Binary64.temp_pixel_y 245 0 r a
                               =? py_int (temp_py 245 0 r a))
                     (range (r + 1)))
          (map (Z.add 1) (range 150)) = true.
Proof. vm_compute. reflexivity. Qed.

Lemma binary64_rain_agrees :
  forallb (fun p => Binary64.rain_pixel_y 245 p =? py_int (rain_py 245 p))
          (range 101) = true.
Proof. vm_compute. reflexivity. Qed.

Lemma binary64_yellow_agrees :
  forallb (fun s =>
             forallb (fun y => Binary64.yellow_channel y s
                               =? py_int (float_of y * brightness s 0 0)%Q)
                     [255; 220; 0])
          (range 766) = true.
Proof. vm_compute. reflexivity. Qed.

Lemma temp_py_shift (y_start temp_min temp_max temp : Z) :
  temp_min < temp_max ->
  temp_py y_start temp_min temp_max temp
  = temp_py y_start 0 (temp_max - temp_min) (temp - temp_min).
Proof.
  intros H. unfold temp_py.
  rewrite (temp_range_lt temp_min temp_max H).
  rewrite (temp_range_lt 0 (temp_max - temp_min)) by lia.
  rewrite !Z.sub_0_r. reflexivity.
Qed.

Lemma binary64_temp_shift (y_start temp_min temp_max temp : Z) :
  temp_min < temp_max ->
  Binary64.temp_pixel_y y_start temp_min temp_max temp
  = Binary64.temp_pixel_y y_start 0 (temp_max - temp_min) (temp - temp_min).
Proof.
  intros H. unfold Binary64.temp_pixel_y.
  rewrite (temp_range_lt temp_min temp_max H).
  rewrite (temp_range_lt 0 (temp_max - temp_min)) by lia.
  rewrite !Z.sub_0_r. reflexivity.
Qed.

(** On the band of [update_display] (y_start = 245) and for ranges of up
    to 150 degrees, binary64 rounding never moves a temperature sample
    to another pixel row. *)
Lemma binary64_temp_pixel_y (temp_min temp_max temp : Z) :
  temp_min < temp_max -> temp_max - temp_min <= 150 ->
  temp_min <= temp <= temp_max ->
  Binary64.temp_pixel_y 245 temp_min temp_max temp
  = temp_pixel_y 245 temp_min temp_max temp.
Proof.
  intros H Hr Ht.
  rewrite binary64_temp_shift by exact H.
  unfold temp_pixel_y. rewrite temp_py_shift by exact H.
  apply Z.eqb_eq.
  apply (forallb_nested
           (fun r a => Binary64.temp_pixel_y 245 0 r a
                       =? py_int (temp_py 245 0 r a))
           (map (Z.add 1) (range 150)) (fun r => range (r + 1))
           binary64_temp_agrees).
  - apply in_map_iff. exists (temp_max - temp_min - 1). split; [lia |].
    apply In_range. lia.
  - apply In_range. lia.
Qed.

Lemma binary64_rain_pixel_y (rain_pct : Z) :
  0 <= rain_pct <= 100 ->
  Binary64.rain_pixel_y 245 rain_pct = rain_pixel_y 245 rain_pct.
Proof.
  intros H. apply Z.eqb_eq.
  apply (proj1 (forallb_forall
                  (fun p => Binary64.rain_pixel_y 245 p
                            =? py_int (rain_py 245 p))
                  (range 101)) binary64_rain_agrees).
  apply In_range. lia.
Qed.

(** For 8-bit channels binary64 rounding never changes a channel of the
    recoloured pixel. *)
Lemma binary64_yellow_channel (y r g b : Z) :
  In y [255; 220; 0] ->
  0 <= r <= 255 -> 0 <= g <= 255 -> 0 <= b <= 255 ->
  Binary64.yellow_channel y (r + g + b)
  = py_int (float_of y * brightness r g b).
Proof.
  intros Hy Hr Hg Hb.
  replace (brightness r g b) with (brightness (r + g + b) 0 0)
    by (unfold brightness; rewrite !Z.add_0_r; reflexivity).
  apply Z.eqb_eq.
  apply (forallb_nested
           (fun s y => Binary64.yellow_channel y s
                       =? py_int (float_of y * brightness s 0 0)%Q)
           (range 766) (fun _ => [255; 220; 0])
           binary64_yellow_agrees).
  - apply In_range. lia.
  - exact Hy.
Qed.

(** * Further properties of the renderer *)

(** ** The smoother interpolates *)

Lemma lookup_flat_map_const {A B} (f : A -> list B) (k : nat) (l : list A)
    (j r : nat) :
  (forall x, length (f x) = k) -> (r < k)%nat ->
  flat_map f l !! (j * k + r)%nat
  = match l !! j with Some x => f x !! r | None => None end.
Proof.
  intros Hk Hr. revert j. induction l as [| a l IH]; intros j; simpl.
  - destruct j; reflexivity.
  - destruct j as [| j]; simpl.
    + rewrite lookup_app_l by (rewrite Hk; exact Hr). reflexivity.
    + rewrite lookup_app_r by (rewrite Hk; lia).
      rewrite Hk. replace (k + j * k + r - k)%nat with (j * k + r)%nat by lia.
      apply IH.
Qed.

Lemma lookup_range (n : Z) (i : nat) :
  (i < Z.to_nat n)%nat -> range n !! i = Some (Z.of_nat i).
Proof.
  intros H. unfold range. rewrite lookup_map.
  rewrite lookup_seq_lt by exact H. reflexivity.
Qed.

Lemma getitem_lookup (points : list point) (i : nat) (p : point) :
  points !! i = Some p -> getitem points (Z.of_nat i) = p.
Proof.
  intros H. unfold getitem. rewrite Nat2Z.id, nth_lookup, H. reflexivity.
Qed.

Lemma bezier_segment_head (points : list point) (s : Z) (i : nat) (p : point) :
  0 < s -> points !! i = Some p ->
  bezier_segment points s (Z.of_nat i) !! 0%nat = Some p.
Proof.
  intros Hs Hp. unfold bezier_segment. cbv zeta.
  destruct (range_pos s Hs) as [r Hr]. rewrite Hr. simpl.
  rewrite (getitem_lookup _ _ _ Hp).
  assert (T : (float_of 0 / float_of s == 0)%Q).
  { unfold float_of. change (inject_Z 0) with 0%Q. unfold Qdiv. ring. }
  rewrite (py_int_exact _ (fst p)) by (apply catmull_rom_at_0, T).
  rewrite (py_int_exact _ (snd p)) by (apply catmull_rom_at_0, T).
  destruct p; reflexivity.
Qed.

(** X1. The smoothed curve passes through every control point: for at
    least two points and a positive segment count s, the output holds
    the i-th input point at index i * s. *)
Theorem bezier_curve_interpolates (points : list point) (s : Z) (i : nat) :
  (2 <= length points)%nat -> 0 < s -> (i < length points)%nat ->
  bezier_curve points s !! (i * Z.to_nat s)%nat = points !! i.
Proof.
  intros L Hs Hi. rewrite bezier_curve_long by exact L.
  destruct (lookup_lt_is_Some_2 points i Hi) as [p Hp]. rewrite Hp.
  set (n := length points) in *.
  assert (Hlen : length (flat_map (bezier_segment points s)
                                  (range (Z.of_nat n - 1)))
                 = ((n - 1) * Z.to_nat s)%nat).
  { rewrite (flat_map_constant_length (c := Z.to_nat s))
      by (intros; apply length_bezier_segment).
    rewrite length_range. lia. }
  destruct (Nat.eq_dec i (n - 1)%nat) as [-> | N].
  - rewrite lookup_app_r by (rewrite Hlen; lia).
    rewrite Hlen, Nat.sub_diag. simpl. f_equal.
    replace (Z.of_nat n - 1) with (Z.of_nat (n - 1)) by lia.
    apply getitem_lookup, Hp.
  - rewrite lookup_app_l by (rewrite Hlen; nia).
    replace (i * Z.to_nat s)%nat with (i * Z.to_nat s + 0)%nat by lia.
    rewrite (lookup_flat_map_const _ (Z.to_nat s))
      by (try (intros; apply length_bezier_segment); lia).
    rewrite lookup_range by lia.
    apply bezier_segment_head; assumption.
Qed.

Lemma bezier_curve_interpolates_witness :
  bezier_curve [(85, 337); (380, 297); (675, 257)] 20 !! (1 * Z.to_nat 20)%nat
  = Some (380, 297).
Proof.
  apply (bezier_curve_interpolates [(85, 337); (380, 297); (675, 257)] 20 1);
    simpl; lia.
Defined.

(** ** Where the chart samples are drawn *)

Lemma lookup_enumerate_from {A} (l : list A) (k i : nat) :
  combine (map Z.of_nat (seq k (length l))) l !! i
  = (fun a => (Z.of_nat (k + i), a)) <$> l !! i.
Proof.
  revert k i. induction l as [| a l IH]; intros k i; simpl.
  - destruct i; reflexivity.
  - destruct i as [| i]; simpl.
    + rewrite Nat.add_0_r. reflexivity.
    + rewrite IH. replace (S k + i)%nat with (k + S i)%nat by lia. reflexivity.
Qed.

Lemma lookup_enumerate {A} (l : list A) (i : nat) :
  enumerate l !! i = (fun a => (Z.of_nat i, a)) <$> l !! i.
Proof. unfold enumerate. apply (lookup_enumerate_from l 0 i). Qed.


Lemma map_snd_combine {A B} (ks : list A) (l : list B) :
  length ks = length l -> map snd (combine ks l) = l.
Proof.
  revert l. induction ks as [| k ks IH]; intros [| b l] E; simpl in *;
    try reflexivity; try discriminate.
  f_equal. apply IH. lia.
Qed.

Lemma map_snd_enumerate {A} (l : list A) : map snd (enumerate l) = l.
Proof.
  unfold enumerate. apply map_snd_combine.
  rewrite length_map. apply length_seq.
Qed.








(** Binary64 rounding does not move a column for up to 60 samples. *)
Lemma binary64_columns_agree :
  forallb (fun n =>
             forallb (fun i => Binary64.sample_pixel_x n i
                               =? py_int (sample_px n i))
                     (range n))
          (map (Z.add 2) (range 59)) = true.
Proof. vm_compute. reflexivity. Qed.

Lemma binary64_sample_pixel_x (n i : Z) :
  2 <= n <= 60 -> 0 <= i < n ->
  Binary64.sample_pixel_x n i = py_int (sample_px n i).
Proof.
  intros Hn Hi. apply Z.eqb_eq.
  apply (forallb_nested
           (fun n i => Binary64.sample_pixel_x n i =? py_int (sample_px n i))
           (map (Z.add 2) (range 59)) (fun n => range n)
           binary64_columns_agree).
  - apply in_map_iff. exists (n - 2). split; [lia |]. apply In_range. lia.
  - apply In_range. lia.
Qed.

(** ** The scale of the prepared data *)

Lemma fold_min_spec (xs : list Z) (x : Z) :
  (fold_left Z.min xs x = x \/ In (fold_left Z.min xs x) xs) /\
  fold_left Z.min xs x <= x /\
  (forall y, In y xs -> fold_left Z.min xs x <= y).
Proof.
  revert x. induction xs as [| a xs IH]; intros x; simpl.
  - repeat split; [left; reflexivity | lia | intros y []].
  - destruct (IH (Z.min x a)) as (M & Lx & La). repeat split.
    + destruct M as [M | M]; [| right; right; exact M].
      rewrite M. destruct (Z.min_spec x a) as [[_ E] | [_ E]]; rewrite E;
        [left; reflexivity | right; left; reflexivity].
    + lia.
    + intros y [<- | Hy]; [lia | apply La, Hy].
Qed.

Lemma fold_max_spec (xs : list Z) (x : Z) :
  (fold_left Z.max xs x = x \/ In (fold_left Z.max xs x) xs) /\
  x <= fold_left Z.max xs x /\
  (forall y, In y xs -> y <= fold_left Z.max xs x).
Proof.
  revert x. induction xs as [| a xs IH]; intros x; simpl.
  - repeat split; [left; reflexivity | lia | intros y []].
  - destruct (IH (Z.max x a)) as (M & Lx & La). repeat split.
    + destruct M as [M | M]; [| right; right; exact M].
      rewrite M. destruct (Z.max_spec x a) as [[_ E] | [_ E]]; rewrite E;
        [right; left; reflexivity | left; reflexivity].
    + lia.
    + intros y [<- | Hy]; [lia | apply La, Hy].
Qed.

(** [min] and [max] of a non-empty list are attained bounds. *)
Lemma py_min_max_spec (l : list Z) :
  l <> [] ->
  In (py_min l) l /\ In (py_max l) l /\
  (forall y, In y l -> py_min l <= y <= py_max l).
Proof.
  intros N. destruct l as [| x xs]; [congruence |]. simpl.
  destruct (fold_min_spec xs x) as (Mn & Ln & Hn).
  destruct (fold_max_spec xs x) as (Mx & Lx & Hx).
  split; [destruct Mn as [-> | M]; [left; reflexivity | right; exact M] |].
  split; [destruct Mx as [-> | M]; [left; reflexivity | right; exact M] |].
  intros y [<- | Hy]; [lia |]. split; [apply Hn, Hy | apply Hx, Hy].
Qed.

(** The scale of the view model, unfolded. *)
Lemma prepared_scale (wd : option WeatherData) (data : RenderModel) :
  prepare_template_data wd = Some data ->
  exists current,
    rm_current data = current /\
    (wd ≫= wd_current) = Some current /\
    let temps := match rm_hourly_data data with
                 | [] => [cur_temperature current]
                 | _ => map hp_temp (rm_hourly_data data)
                 end in
    rm_temp_min data = py_min temps /\ rm_temp_max data = py_max temps.
Proof.
  unfold prepare_template_data. intros E.
  destruct wd as [wd |]; [| discriminate]. simpl.
  destruct (wd_current wd) as [current |]; [| discriminate].
  apply (inj Some) in E. subst data. exists current.
  cbn [rm_current rm_hourly_data rm_temp_min rm_temp_max].
  repeat split; reflexivity.
Qed.

(** X3. The chart is scaled to the hourly series it shows: temp_min and
    temp_max are the least and the greatest of its temperatures, both
    attained, and every point lies between them; when there is no hourly
    entry both are the current temperature. *)
Theorem prepared_temperature_scale
    (wd : option WeatherData) (data : RenderModel) :
  prepare_template_data wd = Some data ->
  (rm_hourly_data data = [] ->
   rm_temp_min data = cur_temperature (rm_current data) /\
   rm_temp_max data = cur_temperature (rm_current data)) /\
  (rm_hourly_data data <> [] ->
   In (rm_temp_min data) (map hp_temp (rm_hourly_data data)) /\
   In (rm_temp_max data) (map hp_temp (rm_hourly_data data)) /\
   forall hour, In hour (rm_hourly_data data) ->
                rm_temp_min data <= hp_temp hour <= rm_temp_max data).
Proof.
  intros E. destruct (prepared_scale _ _ E) as (cur & <- & _ & Emin & Emax).
  cbv zeta in Emin, Emax. rewrite Emin, Emax. split.
  - intros ->. split; reflexivity.
  - intros N. destruct (rm_hourly_data data) as [| h0 hs] eqn:H; [congruence |].
    destruct (py_min_max_spec (map hp_temp (h0 :: hs))) as (A & B & C);
      [discriminate |].
    split; [exact A |]. split; [exact B |].
    intros hour Hh. apply C, in_map, Hh.
Qed.

Lemma prepared_temperature_scale_witness :
  match prepare_template_data (Some test_data) with
  | Some data =>
      rm_hourly_data data <> [] /\
      In (rm_temp_min data) (map hp_temp (rm_hourly_data data)) /\
      In (rm_temp_max data) (map hp_temp (rm_hourly_data data))
  | None => False
  end.
Proof.
  pose proof (prepared_temperature_scale (Some test_data)) as H.
  destruct (prepare_template_data (Some test_data)) as [data |] eqn:E;
    [| discriminate E].
  assert (N : rm_hourly_data data <> []).
  { apply (inj Some) in E. subst data. discriminate. }
  split; [exact N |].
  destruct (H data eq_refl) as [_ B]. destruct (B N) as (P & Q & _).
  split; assumption.
Defined.

Lemma rain_py_decreasing (y p1 p2 : Z) :
  p1 <= p2 -> (rain_py y p2 <= rain_py y p1)%Q.
Proof.
  intros H.
  unfold rain_py, float_of, Qle, Qminus, Qplus, Qopp, Qmult, Qdiv, Qinv,
    inject_Z, graph_height.
  simpl. lia.
Qed.

Lemma temp_pixel_y_in_band (y tmin tmax t : Z) :
  tmin <= t <= tmax ->
  graph_y y <= temp_pixel_y y tmin tmax t <= graph_y y + graph_height.
Proof.
  intros H.
  rewrite <- (temp_pixel_y_at_min y tmin tmax).
  split; [| apply temp_pixel_y_mono; lia].
  destruct (Z.eq_dec tmin tmax) as [-> | N].
  - replace t with tmax by lia. rewrite temp_pixel_y_at_min.
    unfold graph_height. lia.
  - rewrite <- (temp_pixel_y_at_max y tmin tmax) at 1 by lia.
    apply temp_pixel_y_mono; lia.
Qed.

Lemma rain_pixel_y_in_band (y p : Z) :
  0 <= p <= 100 ->
  graph_y y <= rain_pixel_y y p <= graph_y y + graph_height.
Proof.
  intros H. destruct (rain_pixel_y_ends y) as [E0 E100].
  rewrite <- E0. rewrite <- E100 at 1. unfold rain_pixel_y.
  split; apply py_int_mono, rain_py_decreasing; lia.
Qed.

(** X4. With the scale of [prepare_template_data] every temperature
    sample of the chart lies inside the band, graph_y <= y <= graph_y +
    graph_height, and so does every probability sample whose value is
    between 0 and 100. *)
Theorem prepared_chart_stays_in_band
    (wd : option WeatherData) (data : RenderModel) (y : Z) (chart : Chart) :
  prepare_template_data wd = Some data ->
  draw_graph_section (rm_hourly_data data) (rm_temp_min data)
                     (rm_temp_max data) y = Some chart ->
  Forall (fun p : point => graph_y y <= snd p <= graph_y y + graph_height)
         (ch_temp_points chart) /\
  (Forall (fun hour => 0 <= hp_rain_chance hour <= 100) (rm_hourly_data data) ->
   Forall (fun p : point => graph_y y <= snd p <= graph_y y + graph_height)
          (ch_rain_points chart)).
Proof.
  intros E. destruct (prepared_scale _ _ E) as (cur & _ & _ & Emin & Emax).
  cbv zeta in Emin, Emax.
  unfold draw_graph_section.
  destruct (Z.of_nat (length (rm_hourly_data data)) <? 2) eqn:L;
    [discriminate |].
  intros C. apply (inj Some) in C. subst chart.
  cbn [ch_temp_points ch_rain_points].
  destruct (rm_hourly_data data) as [| h0 hs] eqn:H;
    [simpl in L; discriminate |].
  destruct (py_min_max_spec (map hp_temp (h0 :: hs))) as (_ & _ & B);
    [discriminate |].
  rewrite <- Emin, <- Emax in B. split.
  - unfold temp_points. cbv zeta. apply List.Forall_forall. intros p Hp.
    apply in_map_iff in Hp as [[i t] [<- Hi]]. cbn [snd].
    apply In_enumerate in Hi. apply temp_pixel_y_in_band, B, Hi.
  - intros R. rewrite List.Forall_forall in R.
    unfold rain_points. cbv zeta. apply List.Forall_forall. intros p Hp.
    apply in_map_iff in Hp as [[i hour] [<- Hi]]. cbn [snd].
    apply In_enumerate in Hi. apply rain_pixel_y_in_band, R, Hi.
Qed.

Lemma prepared_chart_stays_in_band_witness :
  match prepare_template_data (Some test_data) with
  | Some data =>
      match draw_graph_section (rm_hourly_data data) (rm_temp_min data)
                               (rm_temp_max data) 245 with
      | Some chart =>
          Forall (fun p : point => 257 <= snd p <= 337) (ch_temp_points chart)
      | None => False
      end
  | None => False
  end.
Proof.
  pose proof (prepared_chart_stays_in_band (Some test_data)) as H.
  destruct (prepare_template_data (Some test_data)) as [data |] eqn:E;
    [| discriminate E].
  specialize (H data 245).
  destruct (draw_graph_section (rm_hourly_data data) (rm_temp_min data)
              (rm_temp_max data) 245) as [chart |] eqn:D.
  - exact (proj1 (H chart eq_refl eq_refl)).
  - apply (inj Some) in E. subst data. vm_compute in D. discriminate D.
Defined.

(** ** The vocabulary of the icon resolver *)

(** X5. Whatever the code and the wind speed, the resolver answers with
    one of sixteen asset names; an icon directory holding these sixteen
    files serves every weather icon request. *)
Theorem get_weather_icon_vocabulary (icon_code : string) (wind_speed : Q) :
  In (get_weather_icon icon_code wind_speed) icon_assets.
Proof.
  unfold get_weather_icon, icon_assets. cbv zeta.
  split_ifs; simpl; tauto.
Qed.

Lemma below_override (w : Q) : (w < 20)%Q -> Qle_bool 20 w = false.
Proof.
  intros H. destruct (Qle_bool 20 w) eqn:E; [| reflexivity].
  apply Qle_bool_iff in E. exfalso. apply (Qlt_irrefl w).
  apply Qlt_le_trans with 20%Q; assumption.
Qed.

(** X6. Below the wind override a code ending in 'n' resolves to a night
    or neutral asset and never to a windy one, whatever the wind; a code
    not ending in 'n' never resolves to a night asset, and below 10 mph
    it resolves to an asset without wind variant. *)
Theorem day_and_night_assets (icon_code : string) (wind_speed : Q) :
  (wind_speed < 20)%Q ->
  (endswith icon_code "n" = true ->
   In (get_weather_icon icon_code wind_speed) night_assets) /\
  (endswith icon_code "n" = false ->
   In (get_weather_icon icon_code wind_speed)
      ("clear_windy" :: "cloudy_windy" :: day_assets) /\
   ((wind_speed < 10)%Q ->
    In (get_weather_icon icon_code wind_speed) day_assets)).
Proof.
  intros H. unfold get_weather_icon. rewrite (below_override _ H). cbv zeta.
  split; [intros -> | intros ->; split]; cbn [negb andb].
  - unfold night_assets. split_ifs; simpl; tauto.
  - unfold day_assets. split_ifs; simpl; tauto.
  - intros H10.
    assert (E : Qle_bool 10 wind_speed = false).
    { destruct (Qle_bool 10 wind_speed) eqn:E; [| reflexivity].
      apply Qle_bool_iff in E. exfalso. apply (Qlt_irrefl wind_speed).
      apply Qlt_le_trans with 10%Q; assumption. }
    rewrite E. unfold day_assets. split_ifs; simpl; tauto.
Qed.

Lemma day_and_night_assets_witness :
  In (get_weather_icon "04n" 15) night_assets /\
  In (get_weather_icon "04d" 15)
     ("clear_windy" :: "cloudy_windy" :: day_assets) /\
  In (get_weather_icon "04d" 5) day_assets.
Proof.
  split.
  - apply (proj1 (day_and_night_assets "04n" 15 eq_refl)). reflexivity.
  - destruct (proj2 (day_and_night_assets "04d" 15 eq_refl) eq_refl) as [A _].
    split; [exact A |].
    apply (proj2 (day_and_night_assets "04d" 5 eq_refl)); reflexivity.
Defined.

Lemma last_of_snoc (s : string) (c : Ascii.ascii) :
  String.substring (String.length (s ++ String c "") - 1) 1
                   (s ++ String c "")
  = String c "".
Proof.
  induction s as [| a s IH]; [reflexivity |].
  simpl String.append. simpl String.length.
  destruct (String.length (s ++ String c "")) as [| k] eqn:L.
  { destruct s; discriminate L. }
  replace (S (S k) - 1)%nat with (S k) by lia.
  replace (S k - 1)%nat with k in IH by lia.
  simpl. exact IH.
Qed.

Lemma forced_code_is_day (code : string) :
  endswith (if endswith code "n" then (drop_last code ++ "d")%string else code)
           "n" = false.
Proof.
  destruct (endswith code "n") eqn:E; [| exact E].
  unfold endswith. cbv zeta. rewrite last_of_snoc.
  apply andb_false_r.
Qed.

(** X7. A forecast card never shows a night or a windy icon: with
    force_day and wind speed 0, as [draw_forecast_card] calls it,
    [load_icon] resolves every weather code to one of the eight day
    assets (a UI icon name is loaded under its own name). *)
Theorem forecast_icons_are_day_icons (icon_code : string) :
  str_in icon_code ui_icons = false ->
  exists name, In name day_assets /\
               load_icon_path icon_code 0 true = icon_file name.
Proof.
  intros U. unfold load_icon_path. rewrite U. cbv zeta.
  eexists. split; [| reflexivity].
  rewrite andb_true_l.
  pose proof (forced_code_is_day icon_code) as D.
  destruct (day_and_night_assets
              (if endswith icon_code "n"
               then (drop_last icon_code ++ "d")%string else icon_code)
              0 eq_refl) as [_ B].
  apply (proj2 (B D)). reflexivity.
Qed.

Lemma forecast_icons_are_day_icons_witness :
  exists name, In name day_assets /\
               load_icon_path "13n" 0 true = icon_file name.
Proof. apply (forecast_icons_are_day_icons "13n"). reflexivity. Defined.

(** ** The row of forecast cards *)

Lemma draw_forecast_card_fields (l : loc) (x y w ht : Z) (h h' : heap)
    (d : gmap string pyval) (c : Card) :
  h !! l = Some d ->
  draw_forecast_card l x y w ht h = (Returned c, h') ->
  card_x c = x /\ card_y c = y /\ card_w c = w /\ card_h c = ht /\
  d !! "day_name" = Some (VStr (card_day_name c)) /\
  (exists code, entry_icon_code d = VStr code /\
                card_icon_path c = load_icon_path code 0 true) /\
  d !! "max_temp" = Some (card_max_temp c) /\
  d !! "min_temp" = Some (card_min_temp c).
Proof.
  intros Hl. unfold draw_forecast_card, bind, deref, getkey, entry_icon_code.
  rewrite Hl. unfold ret, raise.
  destruct (d !! "day_name") as [[| | name |] |]; try discriminate.
  destruct (get_default d "icon" (VStr "01d")) as [| | code |];
    try discriminate.
  destruct (d !! "max_temp") as [vmax |]; [| discriminate].
  destruct (d !! "min_temp") as [vmin |]; [| discriminate].
  intros E. injection E as <- _. simpl. eauto 10.
Qed.

Lemma draw_forecast_step_box (y_start cw i : Z) (day : loc) (h h' : heap)
    (c : Card) :
  draw_forecast_step y_start cw i day h = (Returned c, h') ->
  card_box y_start cw i c.
Proof.
  unfold draw_forecast_step, bind, dict_copy.
  destruct (h !! day) as [d |]; [| discriminate].
  set (l' := fresh (dom h)).
  destruct (i =? 0).
  - unfold dict_setitem. rewrite lookup_insert_eq, insert_insert_eq.
    intros E.
    eapply draw_forecast_card_fields in E; [| apply lookup_insert_eq].
    unfold card_box. tauto.
  - unfold ret. intros E.
    eapply draw_forecast_card_fields in E; [| apply lookup_insert_eq].
    unfold card_box. tauto.
Qed.

Lemma draw_forecast_step_content (y_start cw i : Z) (day : loc)
    (h h' : heap) (d : gmap string pyval) (c : Card) :
  h !! day = Some d ->
  draw_forecast_step y_start cw i day h = (Returned c, h') ->
  card_content i d c.
Proof.
  intros Hd. unfold draw_forecast_step, bind, dict_copy. rewrite Hd.
  set (l' := fresh (dom h)).
  destruct (i =? 0) eqn:I0.
  - apply Z.eqb_eq in I0. subst i.
    unfold dict_setitem. rewrite lookup_insert_eq, insert_insert_eq.
    intros E.
    eapply draw_forecast_card_fields in E; [| apply lookup_insert_eq].
    destruct E as (_ & _ & _ & _ & N & I & Mx & Mn).
    rewrite lookup_insert_eq in N.
    unfold entry_icon_code, get_default in I.
    rewrite lookup_insert_ne in I, Mx, Mn by discriminate.
    unfold card_content, entry_icon_code, get_default.
    split; [intros _; congruence |].
    split; [intros NZ; exfalso; apply NZ; reflexivity |].
    split; [exact I |]. split; assumption.
  - apply Z.eqb_neq in I0. unfold ret. intros E.
    eapply draw_forecast_card_fields in E; [| apply lookup_insert_eq].
    destruct E as (_ & _ & _ & _ & N & I & Mx & Mn).
    unfold card_content.
    split; [intros Z0; exfalso; apply I0, Z0 |].
    split; [intros _; exact N |].
    split; [exact I |]. split; assumption.
Qed.

(** What holds of every round of the loop holds of the cards pairwise. *)
Lemma for_each_steps (P : Z -> loc -> Card -> Prop) (y_start cw : Z)
    (h0 : heap) :
  (forall i day h c h', h0 ⊆ h ->
     draw_forecast_step y_start cw i day h = (Returned c, h') -> P i day c) ->
  forall (l : list (Z * loc)) h cs h', h0 ⊆ h ->
    for_each (fun '(i, day) => draw_forecast_step y_start cw i day) l h
    = (Returned cs, h') ->
    Forall2 (fun p c => P (fst p) (snd p) c) l cs.
Proof.
  intros HP. induction l as [| [i day] l IH]; intros h cs h' S E; simpl in E.
  - unfold ret in E. injection E as <- _. constructor.
  - unfold bind at 1 in E.
    pose proof (draw_forecast_step_frame y_start cw i day h0 h S) as S1.
    destruct (draw_forecast_step y_start cw i day h) as [[c | e] h1] eqn:E1;
      [| discriminate].
    simpl in S1. unfold bind at 1 in E.
    destruct (for_each (fun '(i, day) => draw_forecast_step y_start cw i day)
                       l h1) as [[cs' | e] h2] eqn:E2; [| discriminate].
    unfold ret in E. injection E as <- _.
    constructor; [exact (HP _ _ _ _ _ S E1) | exact (IH _ _ _ S1 E2)].
Qed.

(** The loop of [draw_forecast], when it returns. *)
Lemma draw_forecast_loop (width y_start : Z) (forecast_data : list loc)
    (h h' : heap) (cards : list Card) :
  draw_forecast width forecast_data y_start h = (Returned cards, h') ->
  let daily := take_slice 6 forecast_data in
  let cw := card_width width (Z.of_nat (length daily)) in
  for_each (fun '(i, day) => draw_forecast_step y_start cw i day)
           (enumerate daily) h = (Returned cards, h').
Proof.
  unfold draw_forecast. intros E.
  destruct forecast_data as [| day rest]; [exact E |].
  destruct (take_slice 6 (day :: rest)) as [| d0 ds] eqn:T; [exact E |].
  exact E.
Qed.

(** X8. The cards of a row are laid out left to right from x = 42: card
    i of N has its left edge at 42 + i * (card_width + 3), all cards have
    the same top, the same width available_width // N and height 90, and
    each card starts exactly 3 pixels after the previous one ends. *)
Theorem forecast_cards_layout (width y_start : Z) (forecast_data : list loc)
    (h h' : heap) (cards : list Card) :
  draw_forecast width forecast_data y_start h = (Returned cards, h') ->
  let cw := card_width width (Z.of_nat (length cards)) in
  (forall i c, cards !! i = Some c ->
     card_x c = 42 + Z.of_nat i * (cw + 3) /\ card_y c = y_start /\
     card_w c = cw /\ card_h c = 90) /\
  (forall i c c', cards !! i = Some c -> cards !! S i = Some c' ->
     card_x c' = card_x c + card_w c + 3).
Proof.
  intros E cw.
  pose proof (draw_forecast_card_count _ _ _ _ _ _ E) as Len.
  pose proof (draw_forecast_loop _ _ _ _ _ _ E) as L. cbv zeta in L.
  assert (Ecw : card_width width
                  (Z.of_nat (length (take_slice 6 forecast_data))) = cw).
  { subst cw. unfold take_slice. rewrite length_firstn, Len. reflexivity. }
  rewrite Ecw in L.
  apply (for_each_steps (fun i _ c => card_box y_start cw i c) y_start cw h)
    in L; [| intros; eapply draw_forecast_step_box; eassumption
           | reflexivity].
  assert (K : forall i c, cards !! i = Some c ->
     card_x c = 42 + Z.of_nat i * (cw + 3) /\ card_y c = y_start /\
     card_w c = cw /\ card_h c = 90).
  { intros i c Hc.
    destruct (Forall2_lookup_r _ _ _ _ _ L Hc) as ([k day] & Hk & B).
    rewrite lookup_enumerate in Hk.
    destruct (take_slice 6 forecast_data !! i); [| discriminate].
    injection Hk as <- _. exact B. }
  split; [exact K |].
  intros i c c' Hc Hc'.
  destruct (K _ _ Hc) as (X & _ & W & _).
  destruct (K _ _ Hc') as (X' & _). lia.
Qed.

Lemma forecast_cards_layout_witness :
  match draw_forecast 800 [1; 2; 3; 4; 5; 6; 7]%positive 370 test_heap with
  | (Returned cards, _) =>
      forall i c c', cards !! i = Some c -> cards !! S i = Some c' ->
                     card_x c' = card_x c + card_w c + 3
  | (Raised _, _) => False
  end.
Proof.
  pose proof (forecast_cards_layout 800 370 [1; 2; 3; 4; 5; 6; 7]%positive
                test_heap) as H.
  destruct (draw_forecast 800 [1; 2; 3; 4; 5; 6; 7]%positive 370 test_heap)
    as [[cards | e] h'] eqn:E.
  - exact (proj2 (H h' cards eq_refl)).
  - vm_compute in E. discriminate E.
Defined.

Lemma lookup_take_slice {A} (k i : nat) (l : list A) (a : A) :
  take_slice k l !! i = Some a -> l !! i = Some a /\ (i < k)%nat.
Proof.
  unfold take_slice. intros H.
  assert (i < k)%nat.
  { apply lookup_lt_Some in H. rewrite length_take in H. lia. }
  rewrite lookup_take_lt in H by assumption. split; assumption.
Qed.

(** X9. Each card shows its own entry: card i carries the entry's
    'max_temp' and 'min_temp', the icon resolved with force_day from the
    entry's 'icon' (from '01d' when the key is missing), and the entry's
    'day_name', except that the first card is labelled "Today". *)
Theorem forecast_cards_show_entries (width y_start : Z)
    (forecast_data : list loc) (h h' : heap) (cards : list Card) :
  draw_forecast width forecast_data y_start h = (Returned cards, h') ->
  forall i c day d,
    cards !! i = Some c -> forecast_data !! i = Some day ->
    h !! day = Some d ->
    card_content (Z.of_nat i) d c.
Proof.
  intros E i c day d Hc Hday Hd.
  pose proof (draw_forecast_loop _ _ _ _ _ _ E) as L. cbv zeta in L.
  apply (for_each_steps
           (fun i day c => forall d, h !! day = Some d -> card_content i d c)
           _ _ h) in L; [| | reflexivity].
  - destruct (Forall2_lookup_r _ _ _ _ _ L Hc) as ([k day'] & Hk & B).
    rewrite lookup_enumerate in Hk.
    destruct (take_slice 6 forecast_data !! i) as [day'' |] eqn:T;
      [| discriminate].
    injection Hk as <- <-.
    apply lookup_take_slice in T as [T _].
    assert (day'' = day) as -> by congruence.
    exact (B d Hd).
  - intros k l h1 c1 h2 S E1 d1 Hd1.
    eapply draw_forecast_step_content; [| exact E1].
    exact (lookup_weaken _ _ _ _ Hd1 S).
Qed.

Lemma forecast_cards_show_entries_witness :
  match draw_forecast 800 [1; 2; 3]%positive 370 test_heap with
  | (Returned cards, _) =>
      forall c, cards !! 1%nat = Some c -> card_content 1 (test_day 1) c
  | (Raised _, _) => False
  end.
Proof.
  pose proof (forecast_cards_show_entries 800 370 [1; 2; 3]%positive
                test_heap) as H.
  destruct (draw_forecast 800 [1; 2; 3]%positive 370 test_heap)
    as [[cards | e] h'] eqn:E.
  - intros c Hc.
    apply (H h' cards eq_refl 1%nat c 2%positive (test_day 1) Hc);
      [reflexivity | vm_compute; reflexivity].
  - vm_compute in E. discriminate E.
Defined.

(** X10. [draw_forecast] looks at the first six entries only: the call
    on a list and the call on its first six entries give the same cards,
    the same outcome and the same heap, so a seventh entry is never
    read, copied or drawn. *)
Theorem draw_forecast_reads_six (width y_start : Z)
    (forecast_data : list loc) (h : heap) :
  draw_forecast width forecast_data y_start h
  = draw_forecast width (take_slice 6 forecast_data) y_start h.
Proof.
  unfold draw_forecast, take_slice.
  destruct forecast_data as [| day rest]; [reflexivity |].
  rewrite firstn_cons. rewrite <- firstn_cons.
  rewrite (firstn_firstn (day :: rest) 6 6). reflexivity.
Qed.

(** ** Cycles that fail, cycles that succeed *)

(** The view model of a record with a current observation. *)
Lemma prepared_view (wd : WeatherData) (current : Current) :
  wd_current wd = Some current ->
  let forecast :=
    default {| fc_hourly := []; fc_daily := [] |} (wd_forecast wd) in
  exists data,
    prepare_template_data (Some wd) = Some data /\
    rm_current data = current /\
    rm_forecast data = take_slice 7 (fc_daily forecast) /\
    length (rm_hourly_data data) = Nat.min 8 (length (fc_hourly forecast)) /\
    map hp_temp (rm_hourly_data data)
    = map hr_temp (take_slice 8 (fc_hourly forecast)).
Proof.
  intros Hc forecast. unfold prepare_template_data. rewrite Hc.
  eexists. split; [reflexivity |].
  cbn [rm_current rm_forecast rm_hourly_data].
  split; [reflexivity |]. split; [reflexivity |]. split.
  - rewrite length_map, length_enumerate. apply length_firstn.
  - transitivity (map (fun p : Z * HourlyRaw => hr_temp (snd p))
                      (enumerate (take_slice 8 (fc_hourly forecast)))).
    + rewrite map_map. apply map_ext. intros [i hour]. reflexivity.
    + rewrite <- (map_map snd hr_temp), map_snd_enumerate. reflexivity.
Qed.

(** [update_display] past its two guards. *)
Lemma update_display_prepared (width : Z) (wd : WeatherData) (dev : Device)
    (h : heap) (data : RenderModel) (current : Current) :
  wd_current wd = Some current ->
  prepare_template_data (Some wd) = Some data ->
  update_display width (Some wd) dev h
  = match draw_forecast width (rm_forecast data) 370 h with
    | (Returned cards, h') =>
        (show {| fr_city := rm_city data;
                 fr_country := rm_country data;
                 fr_main_icon :=
                   load_icon_path (cur_icon (rm_current data))
                     (default 0%Q (cur_wind_speed (rm_current data))) false;
                 fr_temperature := cur_temperature (rm_current data);
                 fr_feels_like := cur_feels_like (rm_current data);
                 fr_description :=
                   default "Clear" (cur_description (rm_current data));
                 fr_chart :=
                   draw_graph_section (rm_hourly_data data) (rm_temp_min data)
                                      (rm_temp_max data) 245;
                 fr_cards := cards |} dev, h')
    | (Raised e, h') =>
        (print ("Error updating display: " ++ e)%string dev, h')
    end.
Proof.
  intros Hc P. unfold update_display, no_current. rewrite Hc, P. reflexivity.
Qed.

Lemma draw_forecast_card_needs_temps (l : loc) (x y w ht : Z) (h : heap)
    (d : gmap string pyval) :
  h !! l = Some d ->
  d !! "max_temp" = None \/ d !! "min_temp" = None ->
  exists e, draw_forecast_card l x y w ht h = (Raised e, h).
Proof.
  intros Hl M. unfold draw_forecast_card, bind, deref, getkey, get_default.
  rewrite Hl. unfold ret, raise.
  destruct (d !! "day_name") as [[| | name |] |]; eauto.
  destruct (d !! "icon") as [[| | code |] |]; eauto;
    destruct M as [-> | M]; eauto;
    destruct (d !! "max_temp"); eauto; rewrite M; eauto.
Qed.

Lemma draw_forecast_step_needs_temps (y_start cw i : Z) (day : loc)
    (h : heap) (d : gmap string pyval) :
  h !! day = Some d ->
  d !! "max_temp" = None \/ d !! "min_temp" = None ->
  exists e h', draw_forecast_step y_start cw i day h = (Raised e, h').
Proof.
  intros Hd M. unfold draw_forecast_step, bind, dict_copy. rewrite Hd.
  set (l' := fresh (dom h)).
  destruct (i =? 0).
  - unfold dict_setitem. rewrite lookup_insert_eq, insert_insert_eq.
    match goal with
    | |- exists e h', draw_forecast_card ?a ?b ?c0 ?d0 ?e0 ?f = _ =>
        destruct (draw_forecast_card_needs_temps a b c0 d0 e0 f
                    (<["day_name" := VStr "Today"]> d)) as [e E]
    end.
    + apply lookup_insert_eq.
    + rewrite !lookup_insert_ne by discriminate. exact M.
    + rewrite E. eauto.
  - unfold ret.
    match goal with
    | |- exists e h', draw_forecast_card ?a ?b ?c0 ?d0 ?e0 ?f = _ =>
        destruct (draw_forecast_card_needs_temps a b c0 d0 e0 f d) as [e E]
    end.
    + apply lookup_insert_eq.
    + exact M.
    + rewrite E. eauto.
Qed.

Lemma for_each_step_raises (y_start cw : Z) (h0 : heap)
    (l : list (Z * loc)) :
  forall h, h0 ⊆ h ->
  (exists i day d, In (i, day) l /\ h0 !! day = Some d /\
                   (d !! "max_temp" = None \/ d !! "min_temp" = None)) ->
  exists e h',
    for_each (fun '(i, day) => draw_forecast_step y_start cw i day) l h
    = (Raised e, h').
Proof.
  induction l as [| [k day0] l IH]; intros h S (i & day & d & Hin & Hd & M).
  - destruct Hin.
  - simpl. unfold bind at 1.
    pose proof (draw_forecast_step_frame y_start cw k day0 h0 h S) as S1.
    destruct (draw_forecast_step y_start cw k day0 h) as [[c | e] h1] eqn:E1;
      [| eauto].
    simpl in S1. destruct Hin as [Heq | Hin].
    + injection Heq as -> ->.
      destruct (draw_forecast_step_needs_temps y_start cw i day h d
                  (lookup_weaken _ _ _ _ Hd S) M) as (e & h2 & E2).
      congruence.
    + destruct (IH h1 S1) as (e & h2 & E2); [eauto 10 |].
      unfold bind at 1. rewrite E2. eauto.
Qed.

(** X11. A day entry among the first six that lacks 'max_temp' or
    'min_temp' makes [draw_forecast] raise, and the cycle then leaves
    the panel and the saved image as they were: [update_display]
    swallows the exception and only prints an error. *)
Theorem entry_without_temps_blanks_cycle (width : Z) (wd : WeatherData)
    (current : Current) (forecast : Forecast) (dev : Device) (h : heap)
    (i : nat) (day : loc) (d : gmap string pyval) :
  wd_current wd = Some current -> wd_forecast wd = Some forecast ->
  (i < 6)%nat -> fc_daily forecast !! i = Some day -> h !! day = Some d ->
  d !! "max_temp" = None \/ d !! "min_temp" = None ->
  exists e h',
    draw_forecast width (take_slice 7 (fc_daily forecast)) 370 h
    = (Raised e, h') /\
    update_display width (Some wd) dev h
    = (print ("Error updating display: " ++ e)%string dev, h') /\
    dev_screen (fst (update_display width (Some wd) dev h)) = dev_screen dev /\
    dev_png (fst (update_display width (Some wd) dev h)) = dev_png dev.
Proof.
  intros Hc Hf Hi Hday Hd M.
  assert (R : exists e h',
    draw_forecast width (take_slice 7 (fc_daily forecast)) 370 h
    = (Raised e, h')).
  { assert (T : take_slice 6 (take_slice 7 (fc_daily forecast)) !! i
                = Some day).
    { unfold take_slice. rewrite !lookup_take_lt by lia. exact Hday. }
    unfold draw_forecast.
    destruct (take_slice 7 (fc_daily forecast)) as [| d0 ds] eqn:T7.
    { unfold take_slice in T. rewrite take_nil in T. destruct i; discriminate. }
    destruct (take_slice 6 (d0 :: ds)) as [| e0 es] eqn:T6.
    { destruct i; discriminate. }
    apply (for_each_step_raises _ _ h); [reflexivity |].
    exists (Z.of_nat i), day, d. split; [| split; assumption].
    apply list_elem_of_In, list_elem_of_lookup. exists i.
    rewrite lookup_enumerate, T. reflexivity. }
  destruct R as (e & h' & R). exists e, h'. split; [exact R |].
  assert (U : update_display width (Some wd) dev h
              = (print ("Error updating display: " ++ e)%string dev, h')).
  { destruct (prepared_view wd current Hc) as (data & P & _ & F & _).
    rewrite Hf in F. cbn [default] in F. unfold id in F.
    rewrite (update_display_prepared width wd dev h data current Hc P).
    rewrite F, R. reflexivity. }
  rewrite U. repeat split; reflexivity.
Qed.

Lemma entry_without_temps_blanks_cycle_witness :
  let dev := {| dev_screen := None; dev_png := None; dev_stdout := [] |} in
  exists e h',
    draw_forecast 800
      (take_slice 7 (fc_daily {| fc_hourly := test_hourly;
                                 fc_daily := [1; 2; 3]%positive |}))
      370 broken_heap = (Raised e, h') /\
    update_display 800
      (Some {| wd_current := wd_current test_data;
               wd_forecast := Some {| fc_hourly := test_hourly;
                                      fc_daily := [1; 2; 3]%positive |} |})
      dev broken_heap
    = (print ("Error updating display: " ++ e)%string dev, h') /\
    dev_screen (fst (update_display 800
      (Some {| wd_current := wd_current test_data;
               wd_forecast := Some {| fc_hourly := test_hourly;
                                      fc_daily := [1; 2; 3]%positive |} |})
      dev broken_heap)) = dev_screen dev /\
    dev_png (fst (update_display 800
      (Some {| wd_current := wd_current test_data;
               wd_forecast := Some {| fc_hourly := test_hourly;
                                      fc_daily := [1; 2; 3]%positive |} |})
      dev broken_heap)) = dev_png dev.
Proof.
  intros dev.
  eapply (entry_without_temps_blanks_cycle 800 _ _ _ dev broken_heap 1%nat
            2%positive (delete "max_temp" (test_day 1))).
  - reflexivity.
  - reflexivity.
  - lia.
  - reflexivity.
  - vm_compute. reflexivity.
  - left. vm_compute. reflexivity.
Defined.


